(** * KexiftoolManager: a shallow embedding of the metadata session

    The Python package wraps the command-line program ExifTool.  This file
    embeds the decision logic of

      - kernels/pygroups.py   (keyword groups and their start-up checks),
      - kernels/pykernel.py   (date codecs, load_file, save_file),
      - kernels/kpyexif.py, kernels/kpymov.py (per-group accessors),
      - exiftoolmgr.py        (the dispatcher over both groups),

    and proves properties of it.  Python text is modelled as a sequence of
    characters with code points 0..255; exceptions are values of [exn]
    carried by [result]; the external program, the JSON decoder and the
    name iterator of kjmarotools are fields of [Externals]. *)

From Stdlib Require Import ZArith Ascii String List Lia.
From stdpp Require Import base strings list gmap.

Local Open Scope Z_scope.

(** ** Exceptions and fallible results *)

Inductive exn : Type :=
  | AssertionError
  | IndexError
  | KeyError
  | ValueError
  | OverflowError
  | FileNotFoundError
  | TimeoutExpired.

#[global] Instance exn_eq_dec : EqDecision exn.
Proof. solve_decision. Defined.

Inductive result (A : Type) : Type :=
  | Return (a : A)
  | Raise (e : exn).

Arguments Return {A} a.
Arguments Raise {A} e.

#[global] Instance result_ret : MRet result := @Return.

#[global] Instance result_bind : MBind result := fun A B k r =>
  match r with
  | Return a => k a
  | Raise e => Raise e
  end.

(** [for x in xs] collecting [f x], stopping at the first exception. *)
Fixpoint rmap {A B : Type} (f : A → result B) (xs : list A) : result (list B) :=
  match xs with
  | [] => Return []
  | x :: xs' => y ← f x; ys ← rmap f xs'; Return (y :: ys)
  end.

(** ** Python built-ins on text *)

Module Py.

(** [assert c] *)
Definition assert (c : bool) : result unit :=
  if c then Return tt else Raise AssertionError.

(** The truth value of a tuple or list: false when it is empty. *)
Definition truthy {A : Type} (xs : list A) : bool :=
  match xs with
  | [] => false
  | _ :: _ => true
  end.

(** The truth value of a text: false when it is empty. *)
Definition truthy_str (s : string) : bool :=
  match s with
  | EmptyString => false
  | String _ _ => true
  end.

(** [d[k]] on a dictionary. *)
Definition getitem {V : Type} (d : gmap string V) (k : string) : result V :=
  match d !! k with
  | Some v => Return v
  | None => Raise KeyError
  end.

(** [k in d] on a dictionary. *)
Definition has_key {V : Type} (d : gmap string V) (k : string) : bool :=
  match d !! k with
  | Some _ => true
  | None => false
  end.

(** [seq[i]] for a non-negative literal index. *)
Definition index {A : Type} (xs : list A) (i : nat) : result A :=
  match xs !! i with
  | Some x => Return x
  | None => Raise IndexError
  end.

(** [str.isspace] on one character (code points below 256). *)
Definition isspace (c : ascii) : bool :=
  let n := nat_of_ascii c in
  ((9 <=? n)%nat && (n <=? 13)%nat) || ((28 <=? n)%nat && (n <=? 32)%nat)
  || (n =? 133)%nat || (n =? 160)%nat.

Definition digit (c : ascii) : option Z :=
  let n := nat_of_ascii c in
  if ((48 <=? n)%nat && (n <=? 57)%nat)%bool then Some (Z.of_nat n - 48) else None.

(** [s.split(sep)] for a one-character separator: never empty, keeps
    empty pieces. *)
Fixpoint split (sep : ascii) (s : string) : list string :=
  match s with
  | EmptyString => [EmptyString]
  | String c s' =>
      if Ascii.eqb c sep then EmptyString :: split sep s'
      else match split sep s' with
           | w :: ws => String c w :: ws
           | [] => [String c EmptyString]
           end
  end.

(** [s.split()]: pieces between runs of white space, none of them empty. *)
Fixpoint split_ws (s : string) : list string :=
  match s with
  | EmptyString => []
  | String c s' =>
      if isspace c then split_ws s'
      else match s' with
           | EmptyString => [String c EmptyString]
           | String c' _ =>
               if isspace c' then String c EmptyString :: split_ws s'
               else match split_ws s' with
                    | w :: ws => String c w :: ws
                    | [] => [String c EmptyString]
                    end
           end
  end.

Fixpoint lstrip (s : string) : string :=
  match s with
  | EmptyString => EmptyString
  | String c s' => if isspace c then lstrip s' else s
  end.

Fixpoint rstrip (s : string) : string :=
  match s with
  | EmptyString => EmptyString
  | String c s' =>
      match rstrip s' with
      | EmptyString => if isspace c then EmptyString else String c EmptyString
      | r => String c r
      end
  end.

Definition strip (s : string) : string := rstrip (lstrip s).

(** Decimal digits with single underscores allowed between two digits;
    [after_digit] tells whether the previous character was a digit. *)
Fixpoint digits (acc : Z) (after_digit : bool) (s : string) : option Z :=
  match s with
  | EmptyString => if after_digit then Some acc else None
  | String c s' =>
      match digit c with
      | Some d => digits (10 * acc + d) true s'
      | None =>
          if (Ascii.eqb c "_" && after_digit)%bool then digits acc false s'
          else None
      end
  end.

(** [int(s)] in base ten: surrounding white space, an optional sign, then
    digits.  Anything else is a [ValueError]. *)
Definition int (s : string) : result Z :=
  let body (neg : bool) (t : string) :=
    match digits 0 false t with
    | Some n => Return (if neg then - n else n)
    | None => Raise ValueError
    end in
  match strip s with
  | String "+" t => body false t
  | String "-" t => body true t
  | t => body false t
  end.

Fixpoint prefix (p s : string) : bool :=
  match p, s with
  | EmptyString, _ => true
  | String a p', String b s' => Ascii.eqb a b && prefix p' s'
  | String _ _, EmptyString => false
  end.

(** [needle in hay] on text. *)
Fixpoint contains (needle hay : string) : bool :=
  prefix needle hay ||
  match hay with
  | EmptyString => false
  | String _ hay' => contains needle hay'
  end.

Definition upper_char (c : ascii) : ascii :=
  let n := nat_of_ascii c in
  if ((97 <=? n)%nat && (n <=? 122)%nat)%bool then ascii_of_nat (n - 32) else c.

(** [s.upper()] on the letters a..z; other characters are kept. *)
Fixpoint upper (s : string) : string :=
  match s with
  | EmptyString => EmptyString
  | String c s' => String (upper_char c) (upper s')
  end.

(** [s[1:]] *)
Definition tail (s : string) : string :=
  match s with
  | EmptyString => EmptyString
  | String _ s' => s'
  end.

(** [s[n:]] *)
Fixpoint drop (n : nat) (s : string) : string :=
  match n, s with
  | O, _ => s
  | S n', String _ s' => drop n' s'
  | S _, EmptyString => EmptyString
  end.

Definition digit_char (d : Z) : ascii := ascii_of_nat (48 + Z.to_nat (d mod 10)).

(** The [w] lowest decimal digits of [n], most significant first. *)
Fixpoint zfill (w : nat) (n : Z) : string :=
  match w with
  | O => EmptyString
  | S w' => zfill w' (n / 10) +:+ String (digit_char n) EmptyString
  end.

(** Number of decimal digits of a non-negative [n] (1 for 0). *)
Fixpoint ndigits (fuel : nat) (n : Z) : nat :=
  match fuel with
  | O => 1
  | S f => if n <? 10 then 1%nat else S (ndigits f (n / 10))
  end.

(** [%0wd] for a non-negative [n]: all its digits, at least [w] of them. *)
Definition fmt_d (w : nat) (n : Z) : string :=
  zfill (Nat.max w (ndigits (Z.to_nat (Z.log2 n)) n)) n.

End Py.

(** ** The datetime module, as far as the codecs use it *)

Module datetime.

(** [timezone(offset)]: a fixed offset from UTC, in seconds. *)
Record timezone : Type := mk_timezone { utcoffset : Z }.

Record datetime : Type := mk_datetime {
  year : Z; month : Z; day : Z;
  hour : Z; minute : Z; second : Z;
  microsecond : Z;
  tzinfo : option timezone
}.

Definition is_leap (y : Z) : bool :=
  (y mod 4 =? 0) && (negb (y mod 100 =? 0) || (y mod 400 =? 0)).

Definition days_in_month (y m : Z) : Z :=
  if m =? 2 then (if is_leap y then 29 else 28)
  else if (m =? 4) || (m =? 6) || (m =? 9) || (m =? 11) then 30
  else 31.

Definition valid_date (y m d : Z) : bool :=
  (1 <=? y) && (y <=? 9999) && (1 <=? m) && (m <=? 12)
  && (1 <=? d) && (d <=? days_in_month y m).

Definition valid_time (h mi s us : Z) : bool :=
  (0 <=? h) && (h <=? 23) && (0 <=? mi) && (mi <=? 59)
  && (0 <=? s) && (s <=? 59) && (0 <=? us) && (us <=? 999999).

(** The invariant of every value of the Python type. *)
Definition valid (d : datetime) : bool :=
  valid_date (year d) (month d) (day d)
  && valid_time (hour d) (minute d) (second d) (microsecond d).

(** The constructor takes its numbers as C ints. *)
Definition fits_int (z : Z) : bool := (- 2 ^ 31 <=? z) && (z <? 2 ^ 31).

(** [datetime(y, m, d, h, mi, s, us, tzinfo=tz)]: [OverflowError] for a
    number that is no C int, [ValueError] for one out of range. *)
Definition new (y m d h mi s us : Z) (tz : option timezone) : result datetime :=
  if forallb fits_int [y; m; d; h; mi; s; us] then
    if valid_date y m d && valid_time h mi s us
    then Return (mk_datetime y m d h mi s us tz)
    else Raise ValueError
  else Raise OverflowError.

(** [timedelta(hours=h, minutes=mi)] as a number of seconds; the day count
    must have magnitude at most 999999999. *)
Definition timedelta (h mi : Z) : result Z :=
  let secs := h * 3600 + mi * 60 in
  let days := secs / 86400 in
  if (-999999999 <=? days) && (days <=? 999999999) then Return secs
  else Raise OverflowError.

(** [timezone(offset)]: the offset lies strictly between -24h and 24h. *)
Definition new_timezone (offset : Z) : result timezone :=
  if (-86400 <? offset) && (offset <? 86400) then Return (mk_timezone offset)
  else Raise ValueError.

(** [d.strftime("%Y:%m:%d %H:%M:%S")] *)
Definition strftime (d : datetime) : string :=
  Py.fmt_d 4 (year d) +:+ ":" +:+ Py.fmt_d 2 (month d) +:+ ":" +:+
  Py.fmt_d 2 (day d) +:+ " " +:+ Py.fmt_d 2 (hour d) +:+ ":" +:+
  Py.fmt_d 2 (minute d) +:+ ":" +:+ Py.fmt_d 2 (second d).

End datetime.

Export datetime (datetime).

(** [try: body except E1: h1 except E2: h2 ...]: the first clause naming
    the exception runs; without one the exception goes on. *)
Fixpoint handle {A : Type} (e : exn) (clauses : list (exn * result A)) : result A :=
  match clauses with
  | [] => Raise e
  | (E, h) :: rest => if decide (e = E) then h else handle e rest
  end.

Definition try_except {A : Type} (body : result A) (clauses : list (exn * result A))
  : result A :=
  match body with
  | Return a => Return a
  | Raise e => handle e clauses
  end.

(** ** kernels/pykernel.py: the date codecs *)

Module KernelPrivateTools.

(** [_filedates(values)]: file date fields, with a UTC offset after [+]. *)
Definition _filedates (values : list string) : result datetime :=
  v0 ← Py.index values 0;
  ymd ← rmap Py.int (Py.split ":" v0);
  v1 ← Py.index values 1;
  t0 ← Py.index (Py.split "+" v1) 0;
  hms ← rmap Py.int (Py.split ":" t0);
  v1' ← Py.index values 1;
  t1 ← Py.index (Py.split "+" v1') 1;
  let znes := Py.split ":" t1 in
  y ← Py.index ymd 0; mo ← Py.index ymd 1; d ← Py.index ymd 2;
  h ← Py.index hms 0; mi ← Py.index hms 1; s ← Py.index hms 2;
  z0 ← Py.index znes 0; zh ← Py.int z0;
  z1 ← Py.index znes 1; zm ← Py.int z1;
  off ← datetime.timedelta zh zm;
  tz ← datetime.new_timezone off;
  datetime.new y mo d h mi s 0 (Some tz).

(** The body of the [try] in [_metadates]. *)
Definition _metadates_body (values : list string) : result datetime :=
  v0 ← Py.index values 0;
  ymd ← rmap Py.int (Py.split ":" v0);
  v1 ← Py.index values 1;
  hms ← rmap Py.int (Py.split ":" v1);
  y ← Py.index ymd 0; mo ← Py.index ymd 1; d ← Py.index ymd 2;
  h ← Py.index hms 0; mi ← Py.index hms 1; s ← Py.index hms 2;
  datetime.new y mo d h mi s 0 None.

(** [_metadates(values)]: exif date fields; a [ValueError] is replaced by
    [datetime(1, 1, 1)]. *)
Definition _metadates (values : list string) : result datetime :=
  try_except (_metadates_body values)
    [(ValueError, datetime.new 1 1 1 0 0 0 0 None)].

(** [_setmetadates(kwrd, date2add)] *)
Definition _setmetadates (kwrd : string) (date2add : datetime) : string :=
  let bytes_kwd := "-" +:+ kwrd +:+ "=" in
  let bytes_date := datetime.strftime date2add in
  bytes_kwd +:+ bytes_date.

End KernelPrivateTools.

Export KernelPrivateTools.

(** ** kernels/pygroups.py: keyword groups *)

Record BaseKwd : Type := mk_BaseKwd {
  readable : bool;
  editable : bool;
  extensions : list string
}.

Module Keywords.

Module ExifTool.
Definition kwd : BaseKwd := mk_BaseKwd true false [].
Definition tool_version : string := "ExifTool:ExifToolVersion".
End ExifTool.

Module File.
Definition kwd : BaseKwd := mk_BaseKwd true false [].
Definition modify_date : string := "File:FileModifyDate".
Definition access_date : string := "File:FileAccessDate".
Definition create_date : string := "File:FileCreateDate".
End File.

Module Exif.
Definition kwd : BaseKwd := mk_BaseKwd true true ["JPEG"; "JPG"; "PNG"; "MPO"].
Definition camera_model : string := "EXIF:Model".
Definition camera_make : string := "EXIF:Make".
Definition modify_date : string := "EXIF:ModifyDate".
Definition _date_digitized : string := "EXIF:CreateDate".
Definition datetime_original : string := "EXIF:DateTimeOriginal".
End Exif.

Module QuickTime.
Definition kwd : BaseKwd := mk_BaseKwd true true ["MOV"; "3GP"; "MP4"; "M4V"].
Definition create_date : string := "QuickTime:CreateDate".
Definition modify_date : string := "QuickTime:ModifyDate".
Definition track_create_date : string := "QuickTime:TrackCreateDate".
Definition track_modify_date : string := "QuickTime:TrackModifyDate".
Definition media_create_date : string := "QuickTime:MediaCreateDate".
Definition media_modify_date : string := "QuickTime:MediaModifyDate".
Definition comment : string := "QuickTime:Comment".
End QuickTime.

Module Asf.
Definition kwd : BaseKwd := mk_BaseKwd false false [].
Definition create_date : string := "ASF:CreationDate".
End Asf.

Module NoArranged.
Definition kwd : BaseKwd :=
  mk_BaseKwd false false ["BMP"; "AVI"; "MPG"; "WAV"; "MP3"].
Definition ext_image : list string := ["BMP"].
Definition ext_audio : list string := ["WAV"; "MP3"].
Definition ext_video : list string := ["AVI"; "MPG"].
End NoArranged.

End Keywords.

(** An attribute of the class [Keywords]: a keyword group, or something
    that is no [BaseKwd]. *)
Inductive attribute : Type :=
  | Group (k : BaseKwd)
  | NoGroup.

(** [vars(Keywords)]: the attributes the interpreter gives every class
    (their names all hold a double underscore), then the six groups in the
    order of their declaration. *)
Definition vars_Keywords : list (string * attribute) :=
  [ ("__module__", NoGroup); ("__doc__", NoGroup);
    ("ExifTool", Group Keywords.ExifTool.kwd);
    ("File", Group Keywords.File.kwd);
    ("Exif", Group Keywords.Exif.kwd);
    ("QuickTime", Group Keywords.QuickTime.kwd);
    ("Asf", Group Keywords.Asf.kwd);
    ("NoArranged", Group Keywords.NoArranged.kwd);
    ("__dict__", NoGroup); ("__weakref__", NoGroup) ].

(** [[x for x in vars(Keywords) if "__" not in x]] *)
Definition autotest_names (vars : list (string * attribute))
  : list (string * attribute) :=
  filter (fun x => Py.contains "__" x.1 = false) vars.

(** One round of the AUTOTEST loop: its three assertions. *)
Definition autotest_step (_name : string) (a : attribute) : result unit :=
  match a with
  | NoGroup => Raise AssertionError
  | Group _INSTANCE =>
      _ ← Py.assert (negb (editable _INSTANCE && negb (readable _INSTANCE)));
      let _BOOLER := editable _INSTANCE || readable _INSTANCE in
      let _BOOLCL :=
        _BOOLER && negb (bool_decide (_name ∈ ["ExifTool"; "File"])) in
      Py.assert (negb (_BOOLCL && negb (Py.truthy (extensions _INSTANCE))))
  end.

(** The AUTOTEST loop, run when the module is imported. *)
Fixpoint autotest_loop (names : list (string * attribute)) : result unit :=
  match names with
  | [] => Return tt
  | (_name, a) :: rest => _ ← autotest_step _name a; autotest_loop rest
  end.

Definition autotest (vars : list (string * attribute)) : result unit :=
  autotest_loop (autotest_names vars).

(** ** Paths and the world outside the process *)

(** A path, kept as its directory and its final component. *)
Record Path : Type := mk_Path {
  parent : string;
  name : string
}.

Module pathlib.

(** [str(p)] *)
Definition str (p : Path) : string := parent p +:+ "/" +:+ name p.

(** [dir.joinpath(file_name)] *)
Definition joinpath (dir : string) (file_name : string) : Path :=
  mk_Path dir file_name.

(** The text from the last dot of [s] on, when [s] has a dot. *)
Fixpoint from_last_dot (s : string) : option string :=
  match s with
  | EmptyString => None
  | String c s' =>
      match from_last_dot s' with
      | Some t => Some t
      | None => if Ascii.eqb c "." then Some s else None
      end
  end.

(** [p.suffix]: from the last dot of the name on, unless that dot opens
    or ends the name. *)
Definition suffix (p : Path) : string :=
  match name p with
  | EmptyString => EmptyString
  | String _ rest =>
      match from_last_dot rest with
      | Some (String _ (String c t)) => String "." (String c t)
      | _ => EmptyString
      end
  end.

End pathlib.

Inductive level : Type := INFO | WARNING | ERROR.

(** What a call can change outside the session: the regular files that
    exist, the command lines handed to [subprocess.run] each with what came
    back (the standard output or an exception), the records sent to the
    logger (level and format string) and the lines printed. *)
Record World : Type := mk_World {
  files : gset string;
  executed : list (list string * result string);
  logged : list (level * string);
  printed : list string
}.

(** The collaborators that are no part of this package:
    [subprocess.run(args, timeout)] gives the standard output of the program
    or raises, and may change the files; [filetools.itername] of kjmarotools
    picks a name from the files that exist; [json.loads(raw)[0]]. *)
Record Externals : Type := mk_Externals {
  subprocess_run : list string → Z → gset string → result string * gset string;
  itername : gset string → Path → Path;
  json_loads_0 : string → result (gmap string string)
}.

(** ** kernels/pykernel.py: the session *)

(** The attributes of the instance: those [PyKernel.__init__] sets and the
    two tuples [ExifToolManager.__init__] adds.  [_metadata] is the
    [Dict[str, str]] of the source: it holds the tags whose value is text;
    a tag whose JSON value is a number is outside this model. *)
Record PyKernel : Type := mk_PyKernel {
  _exiftool_path : string;
  _filepath : option Path;
  _metadata : gmap string string;
  _commands : list string;
  _log_enabled : bool;
  _readable_formats : list string;
  _editable_formats : list string
}.

Definition set_filepath (v : option Path) (self : PyKernel) : PyKernel :=
  mk_PyKernel (_exiftool_path self) v (_metadata self) (_commands self)
    (_log_enabled self) (_readable_formats self) (_editable_formats self).

Definition set_metadata (v : gmap string string) (self : PyKernel) : PyKernel :=
  mk_PyKernel (_exiftool_path self) (_filepath self) v (_commands self)
    (_log_enabled self) (_readable_formats self) (_editable_formats self).

Definition set_commands (v : list string) (self : PyKernel) : PyKernel :=
  mk_PyKernel (_exiftool_path self) (_filepath self) (_metadata self) v
    (_log_enabled self) (_readable_formats self) (_editable_formats self).

(** [self._commands.append(token)] *)
Definition commands_append (token : string) (self : PyKernel) : PyKernel :=
  set_commands (_commands self ++ [token]) self.

(** Methods that change the session or the world: the state is handed on
    also when an exception is raised. *)
Definition M (A : Type) : Type := PyKernel → World → result A * PyKernel * World.

#[global] Instance M_ret : MRet M := fun A a self w => (Return a, self, w).

#[global] Instance M_bind : MBind M := fun A B k m self w =>
  match m self w with
  | (Return a, self', w') => k a self' w'
  | (Raise e, self', w') => (Raise e, self', w')
  end.

Definition raise {A : Type} (e : exn) : M A := fun self w => (Raise e, self, w).

Definition get_self : M PyKernel := fun self w => (Return self, self, w).

Definition modify_self (f : PyKernel → PyKernel) : M unit :=
  fun self w => (Return tt, f self, w).

Definition lift {A : Type} (r : result A) : M A := fun self w => (r, self, w).

(** [if c: body] *)
Definition when (c : bool) (body : M unit) : M unit :=
  if c then body else mret tt.

(** [self.log.<level>(format, ...)] *)
Definition log (l : level) (format : string) : M unit := fun self w =>
  (Return tt, self,
   mk_World (files w) (executed w) (logged w ++ [(l, format)]) (printed w)).

(** [print(line)] *)
Definition print (line : string) : M unit := fun self w =>
  (Return tt, self,
   mk_World (files w) (executed w) (logged w) (printed w ++ [line])).

(** [p.is_file()] *)
Definition is_file (p : Path) : M bool := fun self w =>
  (Return (bool_decide (pathlib.str p ∈ files w)), self, w).

(** [os.remove(p)] *)
Definition os_remove (p : Path) : M unit := fun self w =>
  if bool_decide (pathlib.str p ∈ files w) then
    (Return tt, self,
     mk_World (files w ∖ {[pathlib.str p]}) (executed w) (logged w) (printed w))
  else (Raise FileNotFoundError, self, w).

(** [filetools.itername(p)] *)
Definition call_itername (E : Externals) (p : Path) : M Path := fun self w =>
  (Return (itername E (files w) p), self, w).

(** [KernelPrivateTools._execute(arguments, timeout)] *)
Definition _execute (E : Externals) (arguments : list string) (timeout : Z)
  : M string := fun self w =>
  let '(out, files') := subprocess_run E arguments timeout (files w) in
  (out, self,
   mk_World files' (executed w ++ [(arguments, out)]) (logged w) (printed w)).

(** [PyKernel.__init__] followed by [ExifToolManager.__init__]; the two
    tuples of formats are passed by the caller below. *)
Definition PyKernel_init (exiftool_path : string) (logger : bool)
  (readable_formats editable_formats : list string) : PyKernel :=
  mk_PyKernel exiftool_path None ∅ [] logger readable_formats editable_formats.

(** [PyKernel.load_file(file2load, timeout)] *)
Definition load_file (E : Externals) (file2load : Path) (timeout : Z) : M unit :=
  found ← is_file file2load;
  _ ← lift (Py.assert found);
  self ← get_self;
  _ ← when (_log_enabled self) (log INFO "[ExiftoolMgr] Loading file: %s");
  _ ← modify_self (set_filepath (Some file2load));
  _ ← modify_self (set_commands []);
  _ ← modify_self (set_metadata ∅);
  raw_mdta ← _execute E [_exiftool_path self; "-G"; "-J"; pathlib.str file2load]
                timeout;
  load_success ←
    (if Py.contains Keywords.ExifTool.tool_version raw_mdta then
       _ ← modify_self (commands_append (_exiftool_path self));
       _ ← modify_self (commands_append "-P");
       mdta ← lift (json_loads_0 E raw_mdta);
       _ ← modify_self (set_metadata mdta);
       mret true
     else mret false);
  when (_log_enabled self)
    (when (negb load_success)
       (_ ← log ERROR "File not loaded:    %s";
        log ERROR "File loading error: %s")).

(** [PyKernel.__save_log(overwrite, file_path_saved, result)] *)
Definition __save_log : M unit :=
  _ ← log INFO "File saved in filepath: [overwrite=%5s] %s";
  _ ← log INFO "File Commands executed: %s";
  log INFO "File execution results: %s".

(** [PyKernel.__save_newname(overwrite, output_filename, timeout)] *)
Definition __save_newname (E : Externals) (overwrite : bool)
  (output_filename : string) (timeout : Z) : M string :=
  self ← get_self;
  match _filepath self with
  | None => raise AssertionError
  | Some filepath =>
      let new_file_path := pathlib.joinpath (parent filepath) output_filename in
      there ← (if overwrite then is_file new_file_path else mret false);
      _ ← when there (os_remove new_file_path);
      new_file_path ← call_itername E new_file_path;
      _ ← modify_self (commands_append ("-filename=" +:+ pathlib.str new_file_path));
      _ ← modify_self (commands_append (pathlib.str filepath));
      self ← get_self;
      result ← _execute E (_commands self) timeout;
      _ ← when (_log_enabled self) __save_log;
      mret result
  end.

(** [PyKernel.__save_samename(overwrite, timeout)] *)
Definition __save_samename (E : Externals) (overwrite : bool) (timeout : Z)
  : M string :=
  self ← get_self;
  match _filepath self with
  | None => raise AssertionError
  | Some filepath =>
      if negb overwrite then
        new_file_path ← call_itername E filepath;
        __save_newname E false (name new_file_path) 30
      else
        _ ← modify_self (commands_append (pathlib.str filepath));
        self ← get_self;
        result ← _execute E (_commands self) timeout;
        let name2del := name filepath +:+ "_original" in
        _ ← os_remove (pathlib.joinpath (parent filepath) name2del);
        _ ← when (_log_enabled self) __save_log;
        mret result
  end.

(** [PyKernel.save_file(output_filename, overwrite, timeout)] *)
Definition save_file (E : Externals) (output_filename : string)
  (overwrite : bool) (timeout : Z) : M bool :=
  self ← get_self;
  match _filepath self with
  | None =>
      _ ← (if _log_enabled self then log WARNING "No file loaded to be saved"
           else print "WARNING: No file loaded to be saved");
      mret false
  | Some filepath =>
      if (length (_commands self) =? 2)%nat then
        _ ← log WARNING "No commands to execute for %s";
        mret false
      else
        result ←
          (if negb (Py.truthy_str output_filename)
              || bool_decide (output_filename = name filepath)
           then __save_samename E overwrite timeout
           else __save_newname E overwrite output_filename timeout);
        _ ← when (_log_enabled self)
              (log INFO "[ExiftoolMgr] Writing file: %s <in> %s");
        mret (negb (Py.contains "unchanged" result)
              && negb (Py.contains "errors" result))
  end.

(** [try: body except E1: h1 ...] around a method call: the state the
    body reached is kept. *)
Definition try_except_M {A : Type} (body : M A) (clauses : list (exn * M A))
  : M A := fun self w =>
  match body self w with
  | (Return a, self', w') => (Return a, self', w')
  | (Raise e, self', w') =>
      match list_find (fun c => e = c.1) clauses with
      | Some (_, (_, h)) => h self' w'
      | None => (Raise e, self', w')
      end
  end.

(** [PyKernel.exiftool_version] *)
Definition exiftool_version (E : Externals) : M string :=
  self ← get_self;
  _execute E [_exiftool_path self; "-ver"] 30.

(** [PyKernel.exiftool_detected] *)
Definition exiftool_detected (E : Externals) : M bool :=
  try_except_M (_ ← exiftool_version E; mret true)
    [(FileNotFoundError, mret false)].

(** [PyKernel.metadata] *)
Definition metadata (self : PyKernel) : gmap string string := _metadata self.

(** ** kernels/kpyexif.py *)

Module PyExifKernel.

Module KEYWORD := Keywords.Exif.

Definition has_exif_date_original_field (self : PyKernel) : bool :=
  Py.has_key (_metadata self) KEYWORD.datetime_original.

Definition get_exif_modify_date (self : PyKernel) : result datetime :=
  v ← Py.getitem (_metadata self) KEYWORD.modify_date;
  _metadates (Py.split_ws v).

Definition get_exif_original_date (self : PyKernel) : result datetime :=
  v ← Py.getitem (_metadata self) KEYWORD.datetime_original;
  _metadates (Py.split_ws v).

Definition get_exif_digitized_date (self : PyKernel) : result datetime :=
  v ← Py.getitem (_metadata self) KEYWORD._date_digitized;
  _metadates (Py.split_ws v).

Definition has_exif_modify_date (self : PyKernel) : result bool :=
  if Py.has_key (_metadata self) KEYWORD.modify_date then
    try_except (_ ← get_exif_modify_date self; Return true)
      [(IndexError, Return false); (KeyError, Return false);
       (ValueError, Return false)]
  else Return false.

Definition has_exif_original_date (self : PyKernel) : result bool :=
  if Py.has_key (_metadata self) KEYWORD.datetime_original then
    try_except (_ ← get_exif_original_date self; Return true)
      [(IndexError, Return false); (KeyError, Return false);
       (ValueError, Return false)]
  else Return false.

Definition has_exif_digitized_date (self : PyKernel) : result bool :=
  if Py.has_key (_metadata self) KEYWORD._date_digitized then
    try_except (_ ← get_exif_digitized_date self; Return true)
      [(IndexError, Return false); (KeyError, Return false);
       (ValueError, Return false)]
  else Return false.

Definition get_exif_camera_make (self : PyKernel) : result string :=
  if Py.has_key (_metadata self) KEYWORD.camera_make
  then Py.getitem (_metadata self) KEYWORD.camera_make
  else Return "".

Definition get_exif_camera_model (self : PyKernel) : result string :=
  if Py.has_key (_metadata self) KEYWORD.camera_model
  then Py.getitem (_metadata self) KEYWORD.camera_model
  else Return "".

Definition get_exif_date_original_as_str (self : PyKernel) : result string :=
  Py.getitem (_metadata self) KEYWORD.datetime_original.

Definition set_exif_modify_date (date2add : datetime) : M unit :=
  modify_self (commands_append (_setmetadates KEYWORD.modify_date date2add)).

Definition set_exif_original_date (date2add : datetime) : M unit :=
  modify_self
    (commands_append (_setmetadates KEYWORD.datetime_original date2add)).

Definition _set_exif_digitized_date (date2add : datetime) : M unit :=
  modify_self
    (commands_append (_setmetadates KEYWORD._date_digitized date2add)).

End PyExifKernel.

(** ** kernels/kpymov.py *)

Module PyMovKernel.

Module KEYWORD := Keywords.QuickTime.

Definition has_mov_create_date_field (self : PyKernel) : bool :=
  Py.has_key (_metadata self) KEYWORD.create_date.

Definition get_mov_create_date (self : PyKernel) : result datetime :=
  v ← Py.getitem (_metadata self) KEYWORD.create_date;
  _metadates (Py.split_ws v).

Definition has_mov_create_date (self : PyKernel) : result bool :=
  if Py.has_key (_metadata self) KEYWORD.create_date then
    try_except (_ ← get_mov_create_date self; Return true)
      [(IndexError, Return false); (KeyError, Return false);
       (ValueError, Return false)]
  else Return false.

Definition get_mov_create_date_as_str (self : PyKernel) : result string :=
  Py.getitem (_metadata self) KEYWORD.create_date.

Definition get_mov_comment (self : PyKernel) : result string :=
  Py.getitem (_metadata self) KEYWORD.comment.

Definition set_mov_create_date (date2add : datetime) : M unit :=
  modify_self (commands_append (_setmetadates KEYWORD.create_date date2add)).

Definition set_mov_comment (comment : string) : M unit :=
  modify_self (commands_append ("-" +:+ KEYWORD.comment +:+ "=" +:+ comment)).

End PyMovKernel.

Export PyExifKernel PyMovKernel.

(** ** exiftoolmgr.py: the dispatcher *)

Module ExifToolManager.

(** The keyword of each base class, in the order of
    [ExifToolManager.__bases__]: [PyExifKernel], then [PyMovKernel]. *)
Definition bases_keywords : list BaseKwd :=
  [Keywords.Exif.kwd; Keywords.QuickTime.kwd].

Definition fast_readable_formats : list string :=
  foldl (fun readable_formats kwrd =>
           if readable kwrd then readable_formats ++ extensions kwrd
           else readable_formats)
        [] bases_keywords.

Definition fast_editable_formats : list string :=
  foldl (fun editable_formats kwrd =>
           if editable kwrd then editable_formats ++ extensions kwrd
           else editable_formats)
        [] bases_keywords.

(** [ExifToolManager(exiftool_path, logger)] *)
Definition init (exiftool_path : string) (logger : bool) : PyKernel :=
  PyKernel_init exiftool_path logger fast_readable_formats fast_editable_formats.

Definition readable_extensions (self : PyKernel) : list string :=
  _readable_formats self.

Definition editable_extensions (self : PyKernel) : list string :=
  _editable_formats self.

(** [filepath.suffix[1:].upper()] *)
Definition extension_of (filepath : Path) : string :=
  Py.upper (Py.tail (pathlib.suffix filepath)).

Definition has_readable_metadate (self : PyKernel) : result bool :=
  match _filepath self with
  | None => Raise AssertionError
  | Some filepath =>
      Return (bool_decide (extension_of filepath ∈ _readable_formats self))
  end.

Definition has_editable_metadate (self : PyKernel) : result bool :=
  match _filepath self with
  | None => Raise AssertionError
  | Some filepath =>
      Return (bool_decide (extension_of filepath ∈ _editable_formats self))
  end.

Definition has_metadata_date_original_field (self : PyKernel) : result bool :=
  r ← has_readable_metadate self;
  if negb r then Return false
  else if has_exif_date_original_field self then Return true
  else if has_mov_create_date_field self then Return true
  else Return false.

Definition has_metadata_date_original (self : PyKernel) : result bool :=
  r ← has_readable_metadate self;
  if negb r then Return false
  else
    e ← has_exif_original_date self;
    if (e : bool) then Return true
    else
      m ← has_mov_create_date self;
      if (m : bool) then Return true else Return false.

Definition fast_has_readable_metadate (filename : Path) : bool :=
  bool_decide (extension_of filename ∈ fast_readable_formats).

Definition fast_has_editable_metadate (filename : Path) : bool :=
  bool_decide (extension_of filename ∈ fast_editable_formats).

Definition get_date_original (self : PyKernel) : result datetime :=
  e ← has_exif_original_date self;
  if (e : bool) then get_exif_original_date self
  else
    m ← has_mov_create_date self;
    if (m : bool) then get_mov_create_date self
    else Raise AssertionError.

Definition get_date_original_as_str (self : PyKernel) : result string :=
  if has_exif_date_original_field self then get_exif_date_original_as_str self
  else if has_mov_create_date_field self then get_mov_create_date_as_str self
  else Return "".

Definition set_date_original (date2add : datetime) : M unit :=
  self ← get_self;
  match _filepath self with
  | None => raise AssertionError
  | Some filepath =>
      let extension := extension_of filepath in
      if bool_decide (extension ∈ extensions Keywords.Exif.kwd) then
        set_exif_original_date date2add
      else if bool_decide (extension ∈ extensions Keywords.QuickTime.kwd) then
        set_mov_create_date date2add
      else raise AssertionError
  end.

End ExifToolManager.

Export ExifToolManager.

(** ** Vocabulary of the statements and sample data *)

(** Every character of [s] passes the test [P]. *)
Fixpoint all_chars (P : ascii → bool) (s : string) : bool :=
  match s with
  | EmptyString => true
  | String c s' => P c && all_chars P s'
  end.

Definition isdigit (c : ascii) : bool :=
  match Py.digit c with Some _ => true | None => false end.

Definition notspace (c : ascii) : bool := negb (Py.isspace c).
Definition differs (sep c : ascii) : bool := negb (Ascii.eqb c sep).

(** [datetime(1, 1, 1)], what [_metadates] gives for a [ValueError]. *)
Definition sentinel : datetime := datetime.mk_datetime 1 1 1 0 0 0 0 None.

(** The session a successful load of [p] with the fields [fields] leaves. *)
Definition loaded (p : Path) (fields : gmap string string) : PyKernel :=
  mk_PyKernel "exiftool" (Some p) fields ["exiftool"; "-P"] true
    fast_readable_formats fast_editable_formats.

(** The [has_*] checks on a date field, each with the tag it reads. *)
Definition has_checks : list ((PyKernel → result bool) * string) :=
  [ (has_exif_original_date, Keywords.Exif.datetime_original);
    (has_exif_modify_date, Keywords.Exif.modify_date);
    (has_exif_digitized_date, Keywords.Exif._date_digitized);
    (has_mov_create_date, Keywords.QuickTime.create_date) ].

(** The common shape of the four checks. *)
Definition has_date (key : string) (self : PyKernel) : result bool :=
  if Py.has_key (_metadata self) key then
    try_except
      (_ ← (v ← Py.getitem (_metadata self) key; _metadates (Py.split_ws v));
       Return true)
      [(IndexError, Return false); (KeyError, Return false);
       (ValueError, Return false)]
  else Return false.

(** A loaded photograph whose original date is no date. *)
Definition garbage_session : PyKernel :=
  loaded (mk_Path "/photos" "a.jpg")
    {[ "EXIF:DateTimeOriginal" := "not:a:date garbage" ]}.

(** A loaded film with a QuickTime creation date and no EXIF field. *)
Definition mov_session : PyKernel :=
  loaded (mk_Path "/films" "clip.MOV")
    {[ "QuickTime:CreateDate" := "2020:01:01 00:00:00" ]}.

(** What must hold of a keyword group declared under [name]. *)
Definition group_invariant (name : string) (G : BaseKwd) : Prop :=
  (editable G = true → readable G = true)
  ∧ (readable G = true ∨ editable G = true →
     name ∉ ["ExifTool"; "File"] → extensions G ≠ []).

(** The test [save_file] applies to the text of the program. *)
Definition tool_success (text : string) : bool :=
  negb (Py.contains "unchanged" text) && negb (Py.contains "errors" text).

(** The copy ExifTool leaves beside a file it rewrites in place. *)
Definition backup_path (filepath : Path) : Path :=
  pathlib.joinpath (parent filepath) (name filepath +:+ "_original").

(** A name iterator for the examples: it puts [1-] before the name. *)
Definition example_itername (fs : gset string) (p : Path) : Path :=
  mk_Path (parent p) ("1-" +:+ name p).

(** A program that prints its version marker when asked for metadata,
    prints nothing when asked to write, and leaves the files alone. *)
Definition quiet_tool : Externals :=
  mk_Externals
    (fun args _ fs =>
       (Return (if bool_decide (args !! 1%nat = Some "-G")
                then "[{ExifTool:ExifToolVersion: 12.4}]" else ""), fs))
    example_itername
    (fun _ => Return ∅).

(** A program that writes as ExifTool does: it reports an update and
    leaves the backup of the last argument beside it. *)
Definition updating_tool : Externals :=
  mk_Externals
    (fun args _ fs =>
       if bool_decide (args !! 1%nat = Some "-G")
       then (Return "[{ExifTool:ExifToolVersion: 12.4}]", fs)
       else (Return "    1 image files updated",
             fs ∪ {[ default "" (last args) +:+ "_original" ]}))
    example_itername
    (fun _ => Return ∅).

(** A machine on which [exiftool] prints nothing that can be used, and on
    which no other word of a command line names a program. *)
Definition broken_tool : Externals :=
  mk_Externals
    (fun args _ fs =>
       (if bool_decide (args !! 0%nat = Some "exiftool")
        then Return "" else Raise FileNotFoundError, fs))
    example_itername
    (fun _ => Return ∅).

Definition photo : Path := mk_Path "/photos" "a.jpg".

Definition photo_world : World := mk_World {[ "/photos/a.jpg" ]} [] [] [].

Definition may_2021 : datetime := datetime.mk_datetime 2021 5 10 14 30 0 0 None.

(** The [set_*] methods of both kernels, each with the token it queues. *)
Definition setters (date2add : datetime) (comment : string)
  : list (M unit * string) :=
  [ (set_exif_modify_date date2add,
     _setmetadates Keywords.Exif.modify_date date2add);
    (set_exif_original_date date2add,
     _setmetadates Keywords.Exif.datetime_original date2add);
    (_set_exif_digitized_date date2add,
     _setmetadates Keywords.Exif._date_digitized date2add);
    (set_mov_create_date date2add,
     _setmetadates Keywords.QuickTime.create_date date2add);
    (set_mov_comment comment, "-QuickTime:Comment=" +:+ comment) ].

(** ** Vocabulary of the further properties *)

(** [d] without its microseconds and its time zone. *)
Definition to_seconds_naive (d : datetime) : datetime :=
  datetime.mk_datetime (datetime.year d) (datetime.month d) (datetime.day d)
    (datetime.hour d) (datetime.minute d) (datetime.second d) 0 None.

(** [d] read as local time at [zh] hours and [zm] minutes east of UTC. *)
Definition at_offset (d : datetime) (zh zm : Z) : datetime :=
  datetime.mk_datetime (datetime.year d) (datetime.month d) (datetime.day d)
    (datetime.hour d) (datetime.minute d) (datetime.second d) 0
    (Some (datetime.mk_timezone (zh * 3600 + zm * 60))).

(** The command line [load_file] runs for [p]. *)
Definition load_command (self : PyKernel) (p : Path) : list string :=
  [_exiftool_path self; "-G"; "-J"; pathlib.str p].

(** [save_file] takes the same-name path for this [output_filename]. *)
Definition same_name (output_filename : string) (fp : Path) : Prop :=
  output_filename = "" ∨ output_filename = name fp.

(** The photograph loaded, with one edit queued. *)
Definition edited_photo : PyKernel :=
  commands_append "-EXIF:DateTimeOriginal=2021:05:10 14:30:00" (loaded photo ∅).

(** The loop of [fast_readable_formats] and [fast_editable_formats], over
    any tuple of base keywords and either flag. *)
Definition formats_of (flag : BaseKwd → bool) (bases : list BaseKwd)
  : list string :=
  foldl (fun formats kwrd =>
           if flag kwrd then formats ++ extensions kwrd else formats)
        [] bases.

(** The getters that index the field map without a test, each with its tag. *)
Definition raw_getters : list ((PyKernel → result string) * string) :=
  [ (get_exif_date_original_as_str, Keywords.Exif.datetime_original);
    (get_mov_create_date_as_str, Keywords.QuickTime.create_date);
    (get_mov_comment, Keywords.QuickTime.comment) ].

(** The getters that decode a date, each with its tag. *)
Definition date_getters : list ((PyKernel → result datetime) * string) :=
  [ (get_exif_modify_date, Keywords.Exif.modify_date);
    (get_exif_original_date, Keywords.Exif.datetime_original);
    (get_exif_digitized_date, Keywords.Exif._date_digitized);
    (get_mov_create_date, Keywords.QuickTime.create_date) ].

(** * Properties *)

(** ** Text *)

Lemma sapp_cons c a b : String c a +:+ b = String c (a +:+ b).
Proof. reflexivity. Qed.

Lemma sapp_nil_l b : EmptyString +:+ b = b.
Proof. reflexivity. Qed.

Lemma all_chars_app P a b :
  all_chars P (a +:+ b) = all_chars P a && all_chars P b.
Proof.
  induction a as [|c a IH]; [reflexivity|].
  rewrite sapp_cons. simpl. rewrite IH. apply andb_assoc.
Qed.

Lemma all_chars_impl (P Q : ascii → bool) s :
  (∀ c, P c = true → Q c = true) → all_chars P s = true → all_chars Q s = true.
Proof.
  intros HPQ. induction s as [|c s IH]; simpl; [done|].
  intros [Hc Hs]%andb_true_iff. rewrite (HPQ c Hc). simpl. auto.
Qed.

Lemma split_whole sep s :
  all_chars (differs sep) s = true → Py.split sep s = [s].
Proof.
  induction s as [|c s IH]; [done|]. cbn [all_chars Py.split].
  intros [Hc Hs]%andb_true_iff. unfold differs in Hc.
  apply negb_true_iff in Hc. rewrite Hc, (IH Hs). reflexivity.
Qed.

Lemma split_app sep a b :
  all_chars (differs sep) a = true →
  Py.split sep (a +:+ String sep b) = a :: Py.split sep b.
Proof.
  induction a as [|c a IH].
  - intros _. rewrite sapp_nil_l. cbn [Py.split].
    rewrite Ascii.eqb_refl. reflexivity.
  - cbn [all_chars]. intros [Hc Ha]%andb_true_iff. unfold differs in Hc.
    apply negb_true_iff in Hc. rewrite sapp_cons. cbn [Py.split].
    rewrite Hc, (IH Ha). reflexivity.
Qed.

Lemma split_ws_word a :
  a ≠ EmptyString → all_chars notspace a = true → Py.split_ws a = [a].
Proof.
  induction a as [|c a IH]; [done|]. intros _.
  cbn [all_chars Py.split_ws]. intros [Hc Ha]%andb_true_iff.
  unfold notspace in Hc. apply negb_true_iff in Hc. rewrite Hc.
  destruct a as [|c' a']; [reflexivity|].
  pose proof Ha as Ha'. cbn [all_chars] in Ha'.
  apply andb_true_iff in Ha' as [Hc' _].
  unfold notspace in Hc'. apply negb_true_iff in Hc'. rewrite Hc'.
  rewrite IH; done.
Qed.

Lemma split_ws_app a c b :
  a ≠ EmptyString → all_chars notspace a = true → Py.isspace c = true →
  Py.split_ws (a +:+ String c b) = a :: Py.split_ws b.
Proof.
  induction a as [|x a IH]; [done|]. intros _ Hxa Hc.
  cbn [all_chars] in Hxa. apply andb_true_iff in Hxa as [Hx Ha].
  unfold notspace in Hx. apply negb_true_iff in Hx.
  rewrite sapp_cons. cbn [Py.split_ws]. rewrite Hx.
  destruct a as [|x' a'].
  - rewrite sapp_nil_l. rewrite Hc. cbn [Py.split_ws]. rewrite Hc. reflexivity.
  - pose proof Ha as Ha'. cbn [all_chars] in Ha'.
    apply andb_true_iff in Ha' as [Hx' _].
    unfold notspace in Hx'. apply negb_true_iff in Hx'.
    rewrite sapp_cons, Hx'. rewrite <- sapp_cons. rewrite IH; done.
Qed.

Lemma lstrip_id s : all_chars notspace s = true → Py.lstrip s = s.
Proof.
  destruct s as [|c s]; cbn [all_chars Py.lstrip]; [done|].
  intros [Hc _]%andb_true_iff. unfold notspace in Hc.
  apply negb_true_iff in Hc. by rewrite Hc.
Qed.

Lemma rstrip_id s : all_chars notspace s = true → Py.rstrip s = s.
Proof.
  induction s as [|c s IH]; cbn [all_chars Py.rstrip]; [done|].
  intros [Hc Hs]%andb_true_iff. unfold notspace in Hc.
  apply negb_true_iff in Hc. rewrite (IH Hs), Hc. by destruct s.
Qed.

Lemma strip_id s : all_chars notspace s = true → Py.strip s = s.
Proof. intros H. unfold Py.strip. by rewrite lstrip_id, rstrip_id. Qed.

Lemma isdigit_notspace c : isdigit c = true → notspace c = true.
Proof.
  destruct c as [[] [] [] [] [] [] [] []]; vm_compute; congruence.
Qed.

Lemma isdigit_differs sep c :
  isdigit sep = false → isdigit c = true → differs sep c = true.
Proof.
  intros Hs Hc. unfold differs. apply negb_true_iff, Ascii.eqb_neq.
  intros ->. congruence.
Qed.

Lemma digit_digit_char n : Py.digit (Py.digit_char n) = Some (n mod 10).
Proof.
  unfold Py.digit_char.
  assert (H : 0 <= n mod 10 < 10) by (apply Z.mod_pos_bound; lia).
  assert (Hc : n mod 10 = 0 ∨ n mod 10 = 1 ∨ n mod 10 = 2 ∨ n mod 10 = 3
               ∨ n mod 10 = 4 ∨ n mod 10 = 5 ∨ n mod 10 = 6 ∨ n mod 10 = 7
               ∨ n mod 10 = 8 ∨ n mod 10 = 9) by lia.
  destruct Hc as [-> | [-> | [-> | [-> | [-> | [-> | [-> | [-> | [-> | ->]]]]]]]]];
    reflexivity.
Qed.

Lemma isdigit_digit_char n : isdigit (Py.digit_char n) = true.
Proof. unfold isdigit. by rewrite digit_digit_char. Qed.

Lemma all_digits_zfill w n : all_chars isdigit (Py.zfill w n) = true.
Proof.
  revert n. induction w as [|w IH]; intros n; cbn [Py.zfill]; [done|].
  rewrite all_chars_app, IH. cbn [all_chars]. by rewrite isdigit_digit_char.
Qed.

Lemma zfill_nonempty w n : Py.zfill (S w) n ≠ EmptyString.
Proof.
  cbn [Py.zfill]. destruct (Py.zfill w (n / 10));
    [rewrite sapp_nil_l|rewrite sapp_cons]; done.
Qed.

Lemma digits_snoc s : ∀ acc b v c d,
  Py.digits acc b s = Some v → Py.digit c = Some d →
  Py.digits acc b (s +:+ String c EmptyString) = Some (10 * v + d).
Proof.
  induction s as [|x s IH]; intros acc b v c d Hs Hc.
  - rewrite sapp_nil_l. cbn [Py.digits] in *. destruct b; [|done].
    injection Hs as <-. by rewrite Hc.
  - rewrite sapp_cons. cbn [Py.digits] in *. destruct (Py.digit x).
    + by apply IH.
    + destruct (Ascii.eqb x "_" && b); [by apply IH|done].
Qed.

Lemma digits_zfill w : ∀ n acc b,
  Py.digits acc b (Py.zfill (S w) n)
  = Some (acc * 10 ^ Z.of_nat (S w) + n mod 10 ^ Z.of_nat (S w)).
Proof.
  induction w as [|w IH]; intros n acc b.
  - cbn [Py.zfill]. rewrite sapp_nil_l. cbn [Py.digits].
    rewrite digit_digit_char. f_equal. change (10 ^ Z.of_nat 1) with 10. lia.
  - change (Py.zfill (S (S w)) n)
      with (Py.zfill (S w) (n / 10) +:+ String (Py.digit_char n) EmptyString).
    rewrite (digits_snoc _ _ _ _ _ _ (IH (n / 10) acc b) (digit_digit_char n)).
    f_equal.
    replace (10 ^ Z.of_nat (S (S w))) with (10 * 10 ^ Z.of_nat (S w))
      by (rewrite (Nat2Z.inj_succ (S w)), Z.pow_succ_r; lia).
    rewrite (Z.rem_mul_r n 10 (10 ^ Z.of_nat (S w))); [lia|lia|].
    apply Z.pow_pos_nonneg; lia.
Qed.

Lemma int_of_digits s :
  s ≠ EmptyString → all_chars isdigit s = true →
  Py.int s = match Py.digits 0 false s with
             | Some n => Return n
             | None => Raise ValueError
             end.
Proof.
  intros Hne Hd. unfold Py.int.
  rewrite strip_id by (eapply all_chars_impl; [apply isdigit_notspace|done]).
  destruct s as [|c s]; [done|]. cbn [all_chars] in Hd.
  apply andb_true_iff in Hd as [Hc _].
  destruct c as [[] [] [] [] [] [] [] []]; try discriminate Hc; reflexivity.
Qed.

Lemma int_zfill w n :
  0 <= n < 10 ^ Z.of_nat (S w) → Py.int (Py.zfill (S w) n) = Return n.
Proof.
  intros Hn. rewrite int_of_digits; [|apply zfill_nonempty|apply all_digits_zfill].
  rewrite digits_zfill. f_equal. rewrite Z.mod_small; lia.
Qed.

Lemma ndigits_le fuel : ∀ w n,
  0 <= n < 10 ^ Z.of_nat (S w) → (Py.ndigits fuel n ≤ S w)%nat.
Proof.
  induction fuel as [|f IH]; intros w n Hn; cbn [Py.ndigits]; [lia|].
  destruct (Z.ltb_spec n 10); [lia|].
  destruct w as [|w]; [change (10 ^ Z.of_nat 1) with 10 in Hn; lia|].
  apply le_n_S, IH.
  rewrite (Nat2Z.inj_succ (S w)), Z.pow_succ_r in Hn by lia.
  split; [apply Z.div_pos; lia|apply Z.div_lt_upper_bound; lia].
Qed.

Lemma fmt_d_zfill w n :
  0 <= n < 10 ^ Z.of_nat (S w) → Py.fmt_d (S w) n = Py.zfill (S w) n.
Proof.
  intros Hn. unfold Py.fmt_d.
  by rewrite Nat.max_l by (by apply ndigits_le).
Qed.

(** ** Writing a date and reading it back *)

Lemma sapp_assoc a b c : (a +:+ b) +:+ c = a +:+ (b +:+ c).
Proof. induction a as [|x a IH]; [done|]. rewrite !sapp_cons. by f_equal. Qed.

Lemma colon_not_digit : isdigit ":" = false.
Proof. reflexivity. Qed.

Lemma zfill_no_colon w n : all_chars (differs ":") (Py.zfill w n) = true.
Proof.
  eapply all_chars_impl; [|apply all_digits_zfill].
  intros c. by apply isdigit_differs.
Qed.

Lemma zfill_notspace w n : all_chars notspace (Py.zfill w n) = true.
Proof.
  eapply all_chars_impl; [|apply all_digits_zfill]. apply isdigit_notspace.
Qed.

(** Three zero-filled numbers joined by colons split and parse back. *)
Lemma triple_parse (w : nat) (a b c : Z) :
  0 <= a < 10 ^ Z.of_nat (S w) → 0 <= b < 100 → 0 <= c < 100 →
  rmap Py.int (Py.split ":"
    (Py.zfill (S w) a +:+ String ":" (Py.zfill 2 b +:+ String ":" (Py.zfill 2 c))))
  = Return [a; b; c].
Proof.
  intros Ha Hb Hc.
  rewrite split_app by apply zfill_no_colon.
  rewrite split_app by apply zfill_no_colon.
  rewrite split_whole by apply zfill_no_colon.
  cbn [rmap]. rewrite (int_zfill w a Ha), (int_zfill 1 b), (int_zfill 1 c);
    [reflexivity|change (10 ^ Z.of_nat 2) with 100; lia..].
Qed.

Lemma triple_notspace w a b c :
  all_chars notspace
    (Py.zfill w a +:+ String ":" (Py.zfill 2 b +:+ String ":" (Py.zfill 2 c))) = true.
Proof.
  rewrite all_chars_app, zfill_notspace. cbn [all_chars andb].
  rewrite all_chars_app, zfill_notspace. cbn [all_chars andb].
  change (notspace ":") with true. cbn [andb]. apply zfill_notspace.
Qed.

Lemma triple_nonempty w a b c :
  Py.zfill (S w) a +:+ String ":" (Py.zfill 2 b +:+ String ":" (Py.zfill 2 c))
  ≠ EmptyString.
Proof.
  pose proof (zfill_nonempty w a) as H.
  destruct (Py.zfill (S w) a); [done|]. by rewrite sapp_cons.
Qed.

Lemma valid_bounds d :
  datetime.valid d = true →
  1 <= datetime.year d <= 9999 ∧ 1 <= datetime.month d <= 12 ∧
  1 <= datetime.day d <= 31 ∧ 0 <= datetime.hour d <= 23 ∧
  0 <= datetime.minute d <= 59 ∧ 0 <= datetime.second d <= 59.
Proof.
  unfold datetime.valid, datetime.valid_date, datetime.valid_time.
  intros H. repeat (apply andb_true_iff in H as [H ?]).
  assert (datetime.days_in_month (datetime.year d) (datetime.month d) <= 31).
  { unfold datetime.days_in_month. repeat case_match; lia. }
  lia.
Qed.

Lemma strftime_shape d :
  datetime.valid d = true →
  datetime.strftime d =
    (Py.zfill 4 (datetime.year d) +:+ String ":"
       (Py.zfill 2 (datetime.month d) +:+ String ":" (Py.zfill 2 (datetime.day d))))
    +:+ String " "
    (Py.zfill 2 (datetime.hour d) +:+ String ":"
       (Py.zfill 2 (datetime.minute d) +:+ String ":" (Py.zfill 2 (datetime.second d)))).
Proof.
  intros Hv. destruct (valid_bounds d Hv) as (Hy & Hm & Hd & Hh & Hmi & Hs).
  unfold datetime.strftime.
  rewrite (fmt_d_zfill 3), !(fmt_d_zfill 1)
    by (first [change (10 ^ Z.of_nat 4) with 10000
              |change (10 ^ Z.of_nat 2) with 100]; lia).
  rewrite !sapp_assoc. reflexivity.
Qed.

Lemma sdrop_app a b : Py.drop (String.length a) (a +:+ b) = b.
Proof. induction a as [|c a IH]; [done|]. rewrite sapp_cons. exact IH. Qed.

Lemma slength_app a b : String.length (a +:+ b) = (String.length a + String.length b)%nat.
Proof. induction a as [|c a IH]; [done|]. rewrite sapp_cons. cbn. by rewrite IH. Qed.

(** C2. A date and time without time zone and with zero microseconds,
    written by [_setmetadates] as [-tag=YYYY:MM:DD HH:MM:SS], gives itself
    back when the text after [-tag=] is split at white space and read by
    [_metadates]. *)
Theorem setmetadates_metadates_roundtrip (kwrd : string) (d : datetime) :
  datetime.valid d = true →
  datetime.microsecond d = 0 →
  datetime.tzinfo d = None →
  _metadates
    (Py.split_ws (Py.drop (2 + String.length kwrd) (_setmetadates kwrd d)))
  = Return d.
Proof.
  intros Hv Hus Htz.
  destruct (valid_bounds d Hv) as (Hy & Hm & Hd & Hh & Hmi & Hs).
  unfold _setmetadates.
  replace (2 + String.length kwrd)%nat
    with (String.length ("-" +:+ kwrd +:+ "=")).
  2:{ rewrite sapp_cons, sapp_nil_l. cbn [String.length]. rewrite slength_app.
      cbn [String.length]. lia. }
  rewrite sdrop_app, strftime_shape by done.
  rewrite split_ws_app by (first [apply triple_nonempty|apply triple_notspace|done]).
  rewrite split_ws_word by (first [apply triple_nonempty|apply triple_notspace]).
  unfold _metadates, _metadates_body. cbn [Py.index lookup list_lookup].
  cbn [mbind result_bind].
  rewrite (triple_parse 3), (triple_parse 1)
    by (first [change (10 ^ Z.of_nat 4) with 10000
              |change (10 ^ Z.of_nat 2) with 100]; lia).
  cbn [Py.index lookup list_lookup mbind result_bind].
  unfold datetime.new.
  replace (forallb datetime.fits_int _) with true.
  2:{ symmetry. cbn [forallb]. unfold datetime.fits_int.
      rewrite !andb_true_iff, !Z.leb_le, !Z.ltb_lt. lia. }
  unfold datetime.valid in Hv. rewrite Hus in Hv. rewrite Hv.
  cbn [try_except]. destruct d; cbn in *. by subst.
Qed.

Lemma setmetadates_metadates_roundtrip_witness :
  _metadates
    (Py.split_ws
       (Py.drop (2 + String.length "EXIF:DateTimeOriginal")
          (_setmetadates "EXIF:DateTimeOriginal" may_2021)))
  = Return may_2021.
Proof.
  apply (setmetadates_metadates_roundtrip "EXIF:DateTimeOriginal" may_2021);
    reflexivity.
Defined.

(** ** What the embedded-metadata codec gives *)

Lemma int_cases s : (∃ z, Py.int s = Return z) ∨ Py.int s = Raise ValueError.
Proof.
  unfold Py.int.
  repeat case_match; eauto.
Qed.

Lemma rmap_int_cases l :
  (∃ zs, rmap Py.int l = Return zs) ∨ rmap Py.int l = Raise ValueError.
Proof.
  induction l as [|x l IH]; [left; by eexists|].
  cbn [rmap]. destruct (int_cases x) as [[z ->]| ->]; [|by right].
  cbn [mbind result_bind].
  destruct IH as [[zs ->]| ->]; [left; by eexists|by right].
Qed.

Lemma rmap_int_fail l x :
  x ∈ l → Py.int x = Raise ValueError → rmap Py.int l = Raise ValueError.
Proof.
  intros Hin Hx. induction Hin as [x l|x y l Hin IH].
  - cbn [rmap]. by rewrite Hx.
  - cbn [rmap]. destruct (int_cases y) as [[z ->]| ->]; [|done].
    cbn [mbind result_bind]. by rewrite (IH Hx).
Qed.

Lemma rmap_length {A B} (f : A → result B) l zs :
  rmap f l = Return zs → length zs = length l.
Proof.
  revert zs. induction l as [|x l IH]; intros zs; cbn [rmap].
  - by intros [= <-].
  - destruct (f x); [|done]. cbn [mbind result_bind].
    destruct (rmap f l) as [ys|]; [|done]. cbn [mbind result_bind].
    intros [= <-]. cbn. f_equal. by apply IH.
Qed.

Lemma new_cases y m d h mi s us tz :
  datetime.new y m d h mi s us tz = Return (datetime.mk_datetime y m d h mi s us tz)
  ∨ datetime.new y m d h mi s us tz = Raise ValueError
  ∨ datetime.new y m d h mi s us tz = Raise OverflowError.
Proof. unfold datetime.new. repeat case_match; auto. Qed.

Lemma index_cases {A} (l : list A) i :
  (∃ x, Py.index l i = Return x) ∨ Py.index l i = Raise IndexError.
Proof. unfold Py.index. destruct (l !! i); eauto. Qed.

(** What [_metadates] can give: a date, or one of two exceptions. *)
Lemma metadates_body_cases values :
  (∃ d, _metadates_body values = Return d)
  ∨ _metadates_body values = Raise IndexError
  ∨ _metadates_body values = Raise ValueError
  ∨ _metadates_body values = Raise OverflowError.
Proof.
  unfold _metadates_body.
  destruct (index_cases values 0) as [[v0 ->]| ->]; [|auto].
  cbn [mbind result_bind].
  destruct (rmap_int_cases (Py.split ":" v0)) as [[ymd ->]| ->]; [|auto].
  cbn [mbind result_bind].
  destruct (index_cases values 1) as [[v1 ->]| ->]; [|auto].
  cbn [mbind result_bind].
  destruct (rmap_int_cases (Py.split ":" v1)) as [[hms ->]| ->]; [|auto].
  cbn [mbind result_bind].
  destruct (index_cases ymd 0) as [[? ->]| ->]; [|auto]; cbn [mbind result_bind].
  destruct (index_cases ymd 1) as [[? ->]| ->]; [|auto]; cbn [mbind result_bind].
  destruct (index_cases ymd 2) as [[? ->]| ->]; [|auto]; cbn [mbind result_bind].
  destruct (index_cases hms 0) as [[? ->]| ->]; [|auto]; cbn [mbind result_bind].
  destruct (index_cases hms 1) as [[? ->]| ->]; [|auto]; cbn [mbind result_bind].
  destruct (index_cases hms 2) as [[? ->]| ->]; [|auto]; cbn [mbind result_bind].
  match goal with |- context [datetime.new ?y ?m ?d ?h ?mi ?s ?us ?tz] =>
    destruct (new_cases y m d h mi s us tz) as [-> | [-> | ->]] end; eauto.
Qed.

Lemma metadates_of_body values :
  _metadates values =
    match _metadates_body values with
    | Raise ValueError => Return sentinel
    | r => r
    end.
Proof.
  unfold _metadates, try_except.
  destruct (_metadates_body values) as [d|[]]; reflexivity.
Qed.

Lemma metadates_cases values :
  (∃ d, _metadates values = Return d)
  ∨ _metadates values = Raise IndexError
  ∨ _metadates values = Raise OverflowError.
Proof.
  rewrite metadates_of_body.
  destruct (metadates_body_cases values) as [[d ->]|[->|[->| ->]]]; eauto.
Qed.

(** C3, as amended. [_metadates] gives [datetime(1, 1, 1)] and does not
    raise when a component of the date token, or of the time token after
    a numeric date token, is no integer, and when three numeric date and
    three numeric time components that are C ints form no valid date and
    time.  Wrong arity is no such case: no token at all, no time token
    after a numeric date token, or fewer than three numeric components of
    either, raise [IndexError]. *)
Theorem metadates_malformed (values : list string) :
  (∀ v0 rest x, values = v0 :: rest →
     x ∈ Py.split ":" v0 → Py.int x = Raise ValueError →
     _metadates values = Return sentinel)
  ∧ (∀ v0 v1 rest ymd x, values = v0 :: v1 :: rest →
     rmap Py.int (Py.split ":" v0) = Return ymd →
     x ∈ Py.split ":" v1 → Py.int x = Raise ValueError →
     _metadates values = Return sentinel)
  ∧ (∀ v0 v1 rest y mo d ymd' h mi s hms', values = v0 :: v1 :: rest →
     rmap Py.int (Py.split ":" v0) = Return (y :: mo :: d :: ymd') →
     rmap Py.int (Py.split ":" v1) = Return (h :: mi :: s :: hms') →
     forallb datetime.fits_int [y; mo; d; h; mi; s] = true →
     datetime.valid_date y mo d && datetime.valid_time h mi s 0 = false →
     _metadates values = Return sentinel)
  ∧ (values = [] → _metadates values = Raise IndexError)
  ∧ (∀ v0 ymd, values = [v0] →
     rmap Py.int (Py.split ":" v0) = Return ymd →
     _metadates values = Raise IndexError)
  ∧ (∀ v0 v1 rest ymd hms, values = v0 :: v1 :: rest →
     rmap Py.int (Py.split ":" v0) = Return ymd →
     rmap Py.int (Py.split ":" v1) = Return hms →
     (length ymd < 3 ∨ length hms < 3)%nat →
     _metadates values = Raise IndexError).
Proof.
  refine (conj _ (conj _ (conj _ (conj _ (conj _ _))))).
  - intros v0 rest x -> Hin Hx. rewrite metadates_of_body.
    unfold _metadates_body. cbn [Py.index lookup list_lookup mbind result_bind].
    by rewrite (rmap_int_fail _ _ Hin Hx).
  - intros v0 v1 rest ymd x -> Hymd Hin Hx. rewrite metadates_of_body.
    unfold _metadates_body. cbn [Py.index lookup list_lookup mbind result_bind].
    rewrite Hymd. cbn [mbind result_bind].
    by rewrite (rmap_int_fail _ _ Hin Hx).
  - intros v0 v1 rest y mo d ymd' h mi s hms' -> Hymd Hhms Hfit Hbad.
    rewrite metadates_of_body.
    unfold _metadates_body. cbn [Py.index lookup list_lookup mbind result_bind].
    rewrite Hymd. cbn [mbind result_bind]. rewrite Hhms.
    cbn [Py.index lookup list_lookup mbind result_bind].
    unfold datetime.new.
    assert (Hf : forallb datetime.fits_int [y; mo; d; h; mi; s; 0] = true).
    { cbn [forallb] in *. repeat (apply andb_true_iff in Hfit as [? Hfit]).
      rewrite !andb_true_iff. repeat split; done. }
    by rewrite Hf, Hbad.
  - intros ->. reflexivity.
  - intros v0 ymd -> Hymd. rewrite metadates_of_body.
    unfold _metadates_body. cbn [Py.index lookup list_lookup mbind result_bind].
    rewrite Hymd. reflexivity.
  - intros v0 v1 rest ymd hms -> Hymd Hhms Hlen. rewrite metadates_of_body.
    unfold _metadates_body. cbn [Py.index lookup list_lookup mbind result_bind].
    rewrite Hymd. cbn [mbind result_bind]. rewrite Hhms.
    cbn [mbind result_bind].
    destruct ymd as [|y [|mo [|d ymd']]]; try reflexivity;
      destruct hms as [|h [|mi [|s hms']]]; try reflexivity;
      cbn [length] in Hlen; lia.
Qed.

Lemma metadates_malformed_witness :
  _metadates ["not:a:date"; "garbage"] = Return sentinel.
Proof.
  destruct (metadates_malformed ["not:a:date"; "garbage"]) as (H & _).
  apply (H "not:a:date" ["garbage"] "not").
  - reflexivity.
  - vm_compute. constructor.
  - vm_compute. reflexivity.
Defined.

(** C3 fails as stated: a date token alone is wrong arity, and the codec
    raises [IndexError] instead of giving the sentinel. *)
Lemma metadates_wrong_arity_raises :
  _metadates (Py.split_ws "2021:05:10") = Raise IndexError
  ∧ _metadates (Py.split_ws "2021:05:10") ≠ Return sentinel.
Proof. split; [vm_compute; reflexivity|vm_compute; discriminate]. Qed.

(** ** The [has_*] checks and the getters *)

Lemma has_checks_shape check key :
  (check, key) ∈ has_checks → check = has_date key.
Proof.
  unfold has_checks. rewrite !elem_of_cons, elem_of_nil.
  intros [[= -> ->]|[[= -> ->]|[[= -> ->]|[[= -> ->]|[]]]]]; reflexivity.
Qed.

Lemma has_date_absent key self :
  _metadata self !! key = None → has_date key self = Return false.
Proof. intros H. unfold has_date, Py.has_key. by rewrite H. Qed.

Lemma has_date_present key self v :
  _metadata self !! key = Some v →
  has_date key self =
    match _metadates (Py.split_ws v) with
    | Return _ => Return true
    | Raise IndexError => Return false
    | Raise KeyError => Return false
    | Raise ValueError => Return false
    | Raise e => Raise e
    end.
Proof.
  intros H. unfold has_date, Py.has_key, Py.getitem. rewrite H.
  cbn [mbind result_bind].
  destruct (_metadates (Py.split_ws v)) as [d|[]]; reflexivity.
Qed.

Lemma has_date_cases key self :
  has_date key self = Return true ∨ has_date key self = Return false
  ∨ has_date key self = Raise OverflowError.
Proof.
  destruct (_metadata self !! key) as [v|] eqn:Hk.
  - rewrite (has_date_present _ _ _ Hk).
    destruct (metadates_cases (Py.split_ws v)) as [[d ->]|[->| ->]]; auto.
  - rewrite (has_date_absent _ _ Hk). auto.
Qed.

(** What the four checks give on a text value: false for an absent tag
    and for a value with too few tokens or components (the codec raises
    [IndexError], which the checks catch); true for a value on which the
    codec meets a [ValueError], because the codec has already put the
    sentinel date in its place and the [except ValueError] clause of the
    check never runs. *)
Lemma has_checks_on_text_values (self : PyKernel)
  (check : PyKernel → result bool) (key : string) :
  (check, key) ∈ has_checks →
  (_metadata self !! key = None → check self = Return false)
  ∧ (∀ v, _metadata self !! key = Some v →
       _metadates (Py.split_ws v) = Raise IndexError → check self = Return false)
  ∧ (∀ v, _metadata self !! key = Some v →
       _metadates_body (Py.split_ws v) = Raise ValueError →
       check self = Return true).
Proof.
  intros Hin. rewrite (has_checks_shape _ _ Hin).
  refine (conj _ (conj _ _)).
  - apply has_date_absent.
  - intros v Hk Hm. by rewrite (has_date_present _ _ _ Hk), Hm.
  - intros v Hk Hm. rewrite (has_date_present _ _ _ Hk), metadates_of_body.
    by rewrite Hm.
Qed.

(** C5, the code at the failing input: the tag is present with the text
    [not:a:date garbage], which is no date.  The getter does not raise but
    gives the sentinel date, so the [except ValueError: return False] of
    the check is never reached: [has_exif_original_date] answers true, and
    so does the dispatcher check [has_metadata_date_original], where the
    claim says false. *)
Lemma has_check_true_on_garbage :
  _metadata garbage_session !! Keywords.Exif.datetime_original
    = Some "not:a:date garbage"
  ∧ get_exif_original_date garbage_session = Return sentinel
  ∧ has_exif_original_date garbage_session = Return true
  ∧ has_metadata_date_original garbage_session = Return true.
Proof. repeat split; vm_compute; reflexivity. Qed.

(** C7. [get_date_original] gives the EXIF value whenever the EXIF getter
    gives one; when the EXIF check is false (in particular when the EXIF
    tag is absent) it gives the QuickTime value; when both checks are false
    (in particular when both tags are absent) it fails with
    [AssertionError]. *)
Theorem get_date_original_first_present (self : PyKernel) :
  (∀ d, get_exif_original_date self = Return d →
        get_date_original self = Return d)
  ∧ (∀ d, has_exif_original_date self = Return false →
        get_mov_create_date self = Return d →
        get_date_original self = Return d)
  ∧ (∀ d, _metadata self !! Keywords.Exif.datetime_original = None →
        get_mov_create_date self = Return d →
        get_date_original self = Return d)
  ∧ (has_exif_original_date self = Return false →
     has_mov_create_date self = Return false →
     get_date_original self = Raise AssertionError)
  ∧ (_metadata self !! Keywords.Exif.datetime_original = None →
     _metadata self !! Keywords.QuickTime.create_date = None →
     get_date_original self = Raise AssertionError).
Proof.
  assert (Hget : ∀ key d,
    (v ← Py.getitem (_metadata self) key; _metadates (Py.split_ws v)) = Return d →
    has_date key self = Return true).
  { intros key d. unfold Py.getitem.
    destruct (_metadata self !! key) as [v|] eqn:Hk; [|done].
    cbn [mbind result_bind]. intros Hd.
    by rewrite (has_date_present _ _ _ Hk), Hd. }
  unfold get_date_original.
  change has_exif_original_date with (has_date Keywords.Exif.datetime_original).
  change has_mov_create_date with (has_date Keywords.QuickTime.create_date).
  refine (conj _ (conj _ (conj _ (conj _ _)))).
  - intros d Hd. rewrite (Hget Keywords.Exif.datetime_original d Hd). exact Hd.
  - intros d -> Hd. cbn [mbind result_bind].
    rewrite (Hget Keywords.QuickTime.create_date d Hd). exact Hd.
  - intros d He Hd. rewrite (has_date_absent _ _ He). cbn [mbind result_bind].
    rewrite (Hget Keywords.QuickTime.create_date d Hd). exact Hd.
  - intros -> ->. reflexivity.
  - intros He Hm. by rewrite (has_date_absent _ _ He), (has_date_absent _ _ Hm).
Qed.

Lemma get_date_original_first_present_witness :
  get_date_original mov_session
  = Return (datetime.mk_datetime 2020 1 1 0 0 0 0 None).
Proof.
  destruct (get_date_original_first_present mov_session) as (_ & _ & H & _).
  apply H; vm_compute; reflexivity.
Defined.

(** C9, the code at the failing input: a time token with the offset
    [-05:00] makes [_filedates] raise [ValueError], where the same token
    with [+05:00] gives the date with that offset as its time zone. *)
Theorem filedates_negative_offset_raises :
  _filedates (Py.split_ws "2021:05:10 14:30:00-05:00") = Raise ValueError
  ∧ _filedates (Py.split_ws "2021:05:10 14:30:00+05:00")
    = Return (datetime.mk_datetime 2021 5 10 14 30 0 0
                (Some (datetime.mk_timezone 18000))).
Proof. split; vm_compute; reflexivity. Qed.

(** ** The keyword groups *)

Lemma assert_cases c :
  (c = true ∧ Py.assert c = Return tt) ∨ (c = false ∧ Py.assert c = Raise AssertionError).
Proof. destruct c; auto. Qed.

Lemma autotest_step_cases name a :
  autotest_step name a = Return tt ∨ autotest_step name a = Raise AssertionError.
Proof.
  unfold autotest_step. destruct a as [G|]; [|auto].
  destruct (assert_cases (negb (editable G && negb (readable G))))
    as [[_ ->]|[_ ->]]; cbn [mbind result_bind]; [|auto].
  match goal with |- context [Py.assert ?c] =>
    destruct (assert_cases c) as [[_ ->]|[_ ->]] end; auto.
Qed.

Lemma autotest_step_ok name a :
  autotest_step name a = Return tt ↔ ∃ G, a = Group G ∧ group_invariant name G.
Proof.
  unfold autotest_step, group_invariant. destruct a as [G|].
  2:{ split; [done|]. by intros (G & ? & _). }
  destruct G as [r e x]. cbn [readable editable extensions].
  split.
  - intros H. exists (mk_BaseKwd r e x). split; [done|].
    cbn [readable editable extensions].
    destruct r, e, x, (bool_decide (name ∈ ["ExifTool"; "File"])) eqn:Hn;
      cbn in H; try discriminate H;
      try apply bool_decide_eq_true in Hn; try apply bool_decide_eq_false in Hn;
      split; intros; try done; try (by intuition discriminate).
  - intros (G & [= <-] & H1 & H2). cbn [readable editable extensions] in *.
    destruct (bool_decide (name ∈ ["ExifTool"; "File"])) eqn:Hn;
      [apply bool_decide_eq_true in Hn|apply bool_decide_eq_false in Hn];
      destruct r, e, x; cbn; try reflexivity;
      first [by (exfalso; apply H2; auto) | by (specialize (H1 eq_refl))].
Qed.

Lemma autotest_loop_ok names :
  autotest_loop names = Return tt ↔
  ∀ name a, (name, a) ∈ names → ∃ G, a = Group G ∧ group_invariant name G.
Proof.
  induction names as [|[n a] names IH]; cbn [autotest_loop].
  - split; [|done]. intros _ ?? H. by apply elem_of_nil in H.
  - destruct (autotest_step_cases n a) as [Hs|Hs]; rewrite Hs;
      cbn [mbind result_bind].
    + rewrite IH. split.
      * intros H name b [[= -> ->]|Hin]%elem_of_cons; [by apply autotest_step_ok|].
        by apply H.
      * intros H name b Hin. apply H. by right.
    + split; [done|]. intros H.
      assert (autotest_step n a = Return tt) as Hok
        by (apply autotest_step_ok, H; by left).
      congruence.
Qed.

Lemma autotest_loop_cases names :
  autotest_loop names = Return tt ∨ autotest_loop names = Raise AssertionError.
Proof.
  induction names as [|[n a] names IH]; cbn [autotest_loop]; [auto|].
  destruct (autotest_step_cases n a) as [-> | ->]; cbn [mbind result_bind]; auto.
Qed.

(** C10. The groups the AUTOTEST loop visits are the six declared ones;
    each is a [BaseKwd] for which editable implies readable and readable
    or editable implies a non-empty extension tuple, unless it is named
    ExifTool or File; the loop passes on them; and on any table of
    attributes the loop passes exactly when every visited attribute is
    such a group, and raises [AssertionError] otherwise. *)
Theorem keywords_invariants :
  (autotest_names vars_Keywords).*1
    = ["ExifTool"; "File"; "Exif"; "QuickTime"; "Asf"; "NoArranged"]
  ∧ (∀ name a, (name, a) ∈ autotest_names vars_Keywords →
       ∃ G, a = Group G ∧ group_invariant name G)
  ∧ autotest vars_Keywords = Return tt
  ∧ (∀ vars,
       (autotest vars = Return tt ↔
        ∀ name a, (name, a) ∈ autotest_names vars →
                  ∃ G, a = Group G ∧ group_invariant name G)
       ∧ (autotest vars = Return tt ∨ autotest vars = Raise AssertionError)).
Proof.
  assert (Hrun : autotest vars_Keywords = Return tt) by (vm_compute; reflexivity).
  refine (conj _ (conj _ (conj Hrun _))).
  - vm_compute. reflexivity.
  - by apply autotest_loop_ok.
  - intros vars. split; [apply autotest_loop_ok|apply autotest_loop_cases].
Qed.

Lemma keywords_invariants_witness :
  group_invariant "Exif" Keywords.Exif.kwd.
Proof.
  destruct keywords_invariants as (_ & H & _).
  destruct (H "Exif" (Group Keywords.Exif.kwd)) as (G & Heq & HG).
  - vm_compute. do 2 constructor. constructor.
  - injection Heq as <-. exact HG.
Defined.

(** ** Setting the original date *)

(** C6. On a loaded session [set_date_original] looks only at the
    upper-cased suffix of the file name, without its dot: in the Exif
    tuple the commands of the session become the old ones followed by
    [-EXIF:DateTimeOriginal=...], in the QuickTime tuple the old ones
    followed by [-QuickTime:CreateDate=...], and otherwise it raises
    [AssertionError] and leaves the session, its commands included, as it
    was.  Neither the fields nor the world enter the choice. *)
Theorem set_date_original_dispatch (date2add : datetime) (self : PyKernel)
  (w : World) (filepath : Path) :
  _filepath self = Some filepath →
  let extension := Py.upper (Py.tail (pathlib.suffix filepath)) in
  (extension ∈ extensions Keywords.Exif.kwd →
     ∃ self',
       set_date_original date2add self w = (Return tt, self', w)
       ∧ _commands self' =
           _commands self
           ++ ["-EXIF:DateTimeOriginal=" +:+ datetime.strftime date2add]
       ∧ _filepath self' = _filepath self
       ∧ _metadata self' = _metadata self)
  ∧ (extension ∈ extensions Keywords.QuickTime.kwd →
     ∃ self',
       set_date_original date2add self w = (Return tt, self', w)
       ∧ _commands self' =
           _commands self
           ++ ["-QuickTime:CreateDate=" +:+ datetime.strftime date2add]
       ∧ _filepath self' = _filepath self
       ∧ _metadata self' = _metadata self)
  ∧ (extension ∉ extensions Keywords.Exif.kwd →
     extension ∉ extensions Keywords.QuickTime.kwd →
     ∃ self',
       set_date_original date2add self w = (Raise AssertionError, self', w)
       ∧ self' = self
       ∧ _commands self' = _commands self).
Proof.
  intros Hp extension.
  unfold set_date_original, get_self, mbind, M_bind. rewrite Hp.
  fold extension. unfold extension_of. fold extension.
  refine (conj _ (conj _ _)).
  - intros He. rewrite (bool_decide_eq_true_2 _ He).
    eexists. split; [reflexivity|]. split; [reflexivity|].
    split; [exact Hp|reflexivity].
  - intros Hq.
    assert (Hne : extension ∉ extensions Keywords.Exif.kwd).
    { intros He. revert Hq He. generalize extension. intros x.
      cbn [extensions Keywords.Exif.kwd Keywords.QuickTime.kwd].
      rewrite !elem_of_cons, !elem_of_nil.
      intros [->|[->|[->|[->|[]]]]] [?|[?|[?|[?|[]]]]]; discriminate. }
    rewrite (bool_decide_eq_false_2 _ Hne), (bool_decide_eq_true_2 _ Hq).
    eexists. split; [reflexivity|]. split; [reflexivity|].
    split; [exact Hp|reflexivity].
  - intros He Hq.
    rewrite (bool_decide_eq_false_2 _ He), (bool_decide_eq_false_2 _ Hq).
    eexists. split; [reflexivity|]. split; reflexivity.
Qed.

Lemma set_date_original_dispatch_witness :
  ∃ self',
    set_date_original may_2021 (loaded photo ∅) photo_world
      = (Return tt, self', photo_world)
    ∧ _commands self' =
        _commands (loaded photo ∅)
        ++ ["-EXIF:DateTimeOriginal=" +:+ datetime.strftime may_2021]
    ∧ _filepath self' = _filepath (loaded photo ∅)
    ∧ _metadata self' = _metadata (loaded photo ∅).
Proof.
  destruct (set_date_original_dispatch may_2021 (loaded photo ∅) photo_world
              photo eq_refl) as (H & _).
  apply H. vm_compute. do 1 constructor. constructor.
Defined.

Ltac run_M :=
  unfold __save_samename, __save_newname, __save_log, load_file, _execute,
    call_itername, os_remove, is_file, print, log, when, lift, modify_self,
    get_self, raise, mbind, M_bind, mret, M_ret in *.

Ltac proj :=
  cbn [executed files logged printed _commands _filepath _metadata
       _exiftool_path _log_enabled _readable_formats _editable_formats
       set_commands commands_append set_filepath set_metadata fst snd] in *.

(** ** Saving *)

Lemma save_newname_spec E overwrite output_filename timeout self w r self' w' fp :
  __save_newname E overwrite output_filename timeout self w = (r, self', w') →
  _filepath self = Some fp →
  (∃ new_file_path,
     _commands self' = _commands self ++
       ["-filename=" +:+ pathlib.str new_file_path; pathlib.str fp])
  ∧ executed w' = executed w ++ [(_commands self', r)]
  ∧ _filepath self' = _filepath self.
Proof.
  intros Hrun Hfp. run_M. rewrite Hfp in Hrun. proj.
  repeat (case_match; simplify_eq; proj);
    try congruence;
    try (split; [eexists; rewrite <- app_assoc; reflexivity|split; reflexivity]).
Qed.

Lemma save_samename_spec E overwrite timeout self w r self' w' fp :
  __save_samename E overwrite timeout self w = (r, self', w') →
  _filepath self = Some fp →
  ∃ out,
    executed w' = executed w ++ [(_commands self', out)]
    ∧ (∃ extra, _commands self' = _commands self ++ extra)
    ∧ (r = out
       ∨ (overwrite = true ∧ r = Raise FileNotFoundError
          ∧ (∃ text, out = Return text)
          ∧ pathlib.str (backup_path fp) ∉ files w')).
Proof.
  intros Hrun Hfp. destruct overwrite.
  - unfold __save_samename in Hrun. run_M. rewrite Hfp in Hrun. proj.
    cbn [negb] in Hrun.
    repeat (case_match; simplify_eq; proj);
      try (eexists; split; [reflexivity|split; [eauto|by left]]).
    eexists; split; [reflexivity|split; [eauto|right]].
    repeat split; eauto.
    match goal with H : bool_decide _ = false |- _ =>
      apply bool_decide_eq_false in H; exact H end.
  - unfold __save_samename in Hrun. unfold get_self, mbind, M_bind in Hrun.
    rewrite Hfp in Hrun. cbn [negb] in Hrun. unfold call_itername in Hrun.
    destruct (save_newname_spec _ _ _ _ _ _ _ _ _ fp Hrun Hfp)
      as ((nfp & Hc) & Hex & _).
    exists r. split; [done|]. split; [eauto|by left].
Qed.

(** C1, as amended. When [save_file] has run the program and got its
    text, it either returns, or raises [FileNotFoundError] because it
    overwrites under the same name and the [_original] backup is not there
    to delete; when it returns, it returns true exactly when the text holds
    neither [unchanged] nor [errors]. *)
Theorem save_file_result (E : Externals) (output_filename : string)
  (overwrite : bool) (timeout : Z) (self : PyKernel) (w : World)
  (r : result bool) (self' : PyKernel) (w' : World)
  (args : list string) (text : string) :
  save_file E output_filename overwrite timeout self w = (r, self', w') →
  executed w' = executed w ++ [(args, Return text)] →
  ((∃ b, r = Return b)
   ∨ (r = Raise FileNotFoundError ∧ overwrite = true
      ∧ ∃ filepath, _filepath self = Some filepath
          ∧ (output_filename = "" ∨ output_filename = name filepath)
          ∧ pathlib.str (backup_path filepath) ∉ files w'))
  ∧ (∀ b, r = Return b →
       (b = true ↔ Py.contains "unchanged" text = false
                   ∧ Py.contains "errors" text = false)).
Proof.
  intros Hrun Hex.
  assert (Hb : ∀ b, b = tool_success text →
            (b = true ↔ Py.contains "unchanged" text = false
                        ∧ Py.contains "errors" text = false)).
  { intros b ->. unfold tool_success.
    rewrite andb_true_iff, !negb_true_iff. done. }
  unfold save_file in Hrun. unfold get_self, mbind at 1, M_bind at 1 in Hrun.
  destruct (_filepath self) as [fp|] eqn:Hfp.
  2:{ run_M. repeat (case_match; simplify_eq; proj);
        exfalso; revert Hex; clear; intros H;
        apply (f_equal length) in H; rewrite length_app in H; cbn in H; lia. }
  destruct (length (_commands self) =? 2)%nat.
  { run_M. simplify_eq; proj. exfalso. revert Hex; clear; intros H.
    apply (f_equal length) in H; rewrite length_app in H; cbn in H; lia. }
  unfold mbind at 1, M_bind at 1 in Hrun.
  destruct (negb (Py.truthy_str output_filename)
            || bool_decide (output_filename = name fp)) eqn:Hsame.
  - destruct (__save_samename E overwrite timeout self w)
      as [[r1 self1] w1] eqn:Hs.
    destruct (save_samename_spec _ _ _ _ _ _ _ _ fp Hs Hfp)
      as (out & Hex1 & _ & Hr).
    assert (Hname : output_filename = "" ∨ output_filename = name fp).
    { apply orb_true_iff in Hsame as [H|H].
      - left. by destruct output_filename.
      - right. by apply bool_decide_eq_true in H. }
    destruct r1 as [result|e].
    + run_M. destruct Hr as [<-|(_ & ? & _)]; [|done].
      assert (executed w' = executed w1) as Hw
        by (repeat (case_match; simplify_eq; proj); done).
      rewrite Hw, Hex1 in Hex. apply app_inv_head in Hex.
      injection Hex as _ ->.
      split; [left|].
      * repeat (case_match; simplify_eq; proj); eauto.
      * intros b Hbr. apply Hb.
        repeat (case_match; simplify_eq; proj); done.
    + simplify_eq. destruct Hr as [<-|(-> & [= ->] & _ & Hback)].
      * rewrite Hex1 in Hex. apply app_inv_head in Hex. done.
      * split; [right; eauto 10|done].
  - destruct (__save_newname E overwrite output_filename timeout self w)
      as [[r1 self1] w1] eqn:Hs.
    destruct (save_newname_spec _ _ _ _ _ _ _ _ _ fp Hs Hfp)
      as (_ & Hex1 & _).
    destruct r1 as [result|e].
    + run_M.
      assert (executed w' = executed w1) as Hw
        by (repeat (case_match; simplify_eq; proj); done).
      rewrite Hw, Hex1 in Hex. apply app_inv_head in Hex.
      injection Hex as _ ->.
      split; [left|].
      * repeat (case_match; simplify_eq; proj); eauto.
      * intros b Hbr. apply Hb.
        repeat (case_match; simplify_eq; proj); done.
    + simplify_eq. rewrite Hex1 in Hex. apply app_inv_head in Hex. done.
Qed.

(** C1 fails as stated: the program prints nothing and leaves no backup;
    the text holds neither word, and [save_file] raises instead of
    returning true. *)
Lemma save_file_raises_on_clean_text :
  let '(r, self', w') :=
    (_ ← load_file quiet_tool photo 30;
     _ ← set_date_original may_2021;
     save_file quiet_tool "" true 30)
      (ExifToolManager.init "exiftool" true) photo_world in
  last (executed w')
    = Some (["exiftool"; "-P"; "-EXIF:DateTimeOriginal=2021:05:10 14:30:00";
             "/photos/a.jpg"], Return "")
  ∧ Py.contains "unchanged" "" = false ∧ Py.contains "errors" "" = false
  ∧ r = Raise FileNotFoundError
  ∧ r ≠ Return true.
Proof. vm_compute. repeat split; discriminate. Qed.

Lemma save_file_result_witness :
  true = true ↔
  Py.contains "unchanged" "    1 image files updated" = false
  ∧ Py.contains "errors" "    1 image files updated" = false.
Proof.
  refine (proj2 (save_file_result updating_tool "" true 30
    (commands_append "-EXIF:DateTimeOriginal=2021:05:10 14:30:00"
       (loaded photo ∅))
    photo_world (Return true) _ _ _ "    1 image files updated" _ _)
    true eq_refl).
  - vm_compute. reflexivity.
  - vm_compute. reflexivity.
Defined.

(** C4, the code at the failing input: the load finds no version marker
    in the output, so no command is queued; [save_file] with its default
    arguments, called next, does not return false but hands a command line
    to [subprocess.run]. *)
Theorem save_after_failed_load_executes :
  let '(r, self', w') :=
    (_ ← load_file broken_tool photo 30; save_file broken_tool "" false 30)
      (ExifToolManager.init "exiftool" true) photo_world in
  _commands self' = ["-filename=/photos/1-1-a.jpg"; "/photos/a.jpg"]
  ∧ executed w' =
      [ (["exiftool"; "-G"; "-J"; "/photos/a.jpg"], Return "");
        (["-filename=/photos/1-1-a.jpg"; "/photos/a.jpg"],
         Raise FileNotFoundError) ]
  ∧ r = Raise FileNotFoundError.
Proof. vm_compute. repeat split. Qed.

Lemma save_file_nothing_to_do E output_filename overwrite timeout self w :
  _filepath self = None ∨ length (_commands self) = 2%nat →
  ∃ w', save_file E output_filename overwrite timeout self w
          = (Return false, self, w')
        ∧ files w' = files w ∧ executed w' = executed w.
Proof.
  intros H. unfold save_file, get_self, mbind, M_bind.
  destruct (_filepath self) as [fp|] eqn:Hfp.
  - destruct H as [? | ->]; [done|]. cbn [Nat.eqb]. run_M. eauto.
  - run_M. destruct (_log_enabled self); eauto.
Qed.

Lemma save_file_keeps_commands E output_filename overwrite timeout self w r self' w' :
  save_file E output_filename overwrite timeout self w = (r, self', w') →
  ∃ extra, _commands self' = _commands self ++ extra.
Proof.
  intros Hrun.
  unfold save_file in Hrun. unfold get_self, mbind at 1, M_bind at 1 in Hrun.
  destruct (_filepath self) as [fp|] eqn:Hfp.
  2:{ run_M. exists []. rewrite app_nil_r.
      repeat (case_match; simplify_eq; proj); done. }
  destruct (length (_commands self) =? 2)%nat.
  { run_M. simplify_eq. exists []. by rewrite app_nil_r. }
  unfold mbind at 1, M_bind at 1 in Hrun.
  destruct (negb (Py.truthy_str output_filename)
            || bool_decide (output_filename = name fp)).
  - destruct (__save_samename E overwrite timeout self w)
      as [[r1 self1] w1] eqn:Hs.
    destruct (save_samename_spec _ _ _ _ _ _ _ _ fp Hs Hfp)
      as (out & _ & Hc & _).
    assert (self' = self1) as ->; [|done].
    run_M. repeat (case_match; simplify_eq; proj); done.
  - destruct (__save_newname E overwrite output_filename timeout self w)
      as [[r1 self1] w1] eqn:Hs.
    destruct (save_newname_spec _ _ _ _ _ _ _ _ _ fp Hs Hfp)
      as ((nfp & Hc) & _ & _).
    assert (self' = self1) as ->; [|eauto].
    run_M. repeat (case_match; simplify_eq; proj); done.
Qed.

Lemma load_file_commands E file2load timeout self w self' w' args raw :
  load_file E file2load timeout self w = (Return tt, self', w') →
  executed w' = executed w ++ [(args, Return raw)] →
  _commands self' =
    if Py.contains Keywords.ExifTool.tool_version raw
    then [_exiftool_path self; "-P"] else [].
Proof.
  intros Hrun Hex. run_M. unfold Py.assert in Hrun.
  repeat (case_match; simplify_eq; proj);
    try (apply app_inv_head in Hex; simplify_eq);
    try reflexivity; congruence.
Qed.

(** C8, as amended. A load that returns leaves the two-token baseline
    when the output holds the version marker, and no token at all when it
    does not; every [set_*] method appends exactly one token;
    [set_date_original], when it returns, appends exactly one token; and
    [save_file] only appends: the tokens queued before it are still queued,
    in the same order, after it. *)
Theorem pending_commands_lifecycle (E : Externals) :
  (∀ file2load timeout self w self' w' args raw,
     load_file E file2load timeout self w = (Return tt, self', w') →
     executed w' = executed w ++ [(args, Return raw)] →
     (Py.contains Keywords.ExifTool.tool_version raw = true →
      _commands self' = [_exiftool_path self; "-P"])
     ∧ (Py.contains Keywords.ExifTool.tool_version raw = false →
        _commands self' = []))
  ∧ (∀ date2add comment set token self w,
       (set, token) ∈ setters date2add comment →
       set self w = (Return tt, commands_append token self, w)
       ∧ _commands (commands_append token self) = _commands self ++ [token])
  ∧ (∀ date2add self w self' w',
       set_date_original date2add self w = (Return tt, self', w') →
       ∃ token, _commands self' = _commands self ++ [token])
  ∧ (∀ output_filename overwrite timeout self w r self' w',
       save_file E output_filename overwrite timeout self w = (r, self', w') →
       ∃ extra, _commands self' = _commands self ++ extra).
Proof.
  refine (conj _ (conj _ (conj _ _))).
  - intros file2load timeout self w self' w' args raw Hrun Hex.
    rewrite (load_file_commands _ _ _ _ _ _ _ _ _ Hrun Hex).
    split; intros ->; reflexivity.
  - intros date2add comment set token self w.
    unfold setters. rewrite !elem_of_cons, elem_of_nil.
    intros [[= -> ->]|[[= -> ->]|[[= -> ->]|[[= -> ->]|[[= -> ->]|[]]]]]];
      split; reflexivity.
  - intros date2add self w self' w'.
    unfold set_date_original, get_self, mbind, M_bind, raise.
    unfold set_exif_original_date, set_mov_create_date, modify_self.
    repeat (case_match; simplify_eq); intros [= <- <-]; proj; eauto.
  - intros. by eapply save_file_keeps_commands.
Qed.

Lemma pending_commands_lifecycle_witness :
  ∃ token,
    _commands (commands_append "-EXIF:DateTimeOriginal=2021:05:10 14:30:00"
                 (loaded photo ∅))
    = _commands (loaded photo ∅) ++ [token].
Proof.
  destruct (pending_commands_lifecycle quiet_tool) as (_ & _ & H & _).
  apply (H may_2021 (loaded photo ∅) photo_world _ photo_world).
  vm_compute. reflexivity.
Defined.

(** C8 fails as stated: after a save that returns true the edit token is
    still in the commands, and a second save hands it to the program
    again. *)
Lemma save_file_leaves_commands_pending :
  let '(r, self', w') :=
    (_ ← load_file updating_tool photo 30;
     _ ← set_date_original may_2021;
     save_file updating_tool "" true 30)
      (ExifToolManager.init "exiftool" true) photo_world in
  r = Return true
  ∧ _commands self' =
      ["exiftool"; "-P"; "-EXIF:DateTimeOriginal=2021:05:10 14:30:00";
       "/photos/a.jpg"]
  ∧ ∃ r2 self2 w2,
      save_file updating_tool "" true 30 self' w' = (r2, self2, w2)
      ∧ last (executed w2)
        = Some (["exiftool"; "-P"; "-EXIF:DateTimeOriginal=2021:05:10 14:30:00";
                 "/photos/a.jpg"; "/photos/a.jpg"],
                Return "    1 image files updated").
Proof.
  vm_compute. split; [reflexivity|]. split; [reflexivity|].
  do 3 eexists. split; reflexivity.
Qed.

(** * Further properties of the code *)

Lemma plus_not_digit : isdigit "+" = false.
Proof. reflexivity. Qed.

Lemma zfill_no_plus w n : all_chars (differs "+") (Py.zfill w n) = true.
Proof.
  eapply all_chars_impl; [|apply all_digits_zfill].
  intros c. by apply isdigit_differs.
Qed.

Lemma triple_no_plus w a b c :
  all_chars (differs "+")
    (Py.zfill w a +:+ String ":" (Py.zfill 2 b +:+ String ":" (Py.zfill 2 c))) = true.
Proof.
  rewrite all_chars_app, zfill_no_plus. cbn [all_chars andb].
  rewrite all_chars_app, zfill_no_plus. cbn [all_chars andb].
  change (differs "+" ":") with true. cbn [andb]. apply zfill_no_plus.
Qed.

Lemma pair_parse (a b : Z) :
  0 <= a < 100 → 0 <= b < 100 →
  Py.split ":" (Py.zfill 2 a +:+ String ":" (Py.zfill 2 b))
  = [Py.zfill 2 a; Py.zfill 2 b].
Proof.
  intros Ha Hb.
  rewrite split_app by apply zfill_no_colon.
  by rewrite split_whole by apply zfill_no_colon.
Qed.

Lemma fits_int_small z : -10000 <= z <= 10000 → datetime.fits_int z = true.
Proof.
  intros H. unfold datetime.fits_int.
  rewrite andb_true_iff, Z.leb_le, Z.ltb_lt. lia.
Qed.

Lemma valid_time_zero_us h mi s us :
  datetime.valid_time h mi s us = true → datetime.valid_time h mi s 0 = true.
Proof.
  unfold datetime.valid_time. rewrite !andb_true_iff, !Z.leb_le. lia.
Qed.

Lemma new_valid d tz :
  datetime.valid d = true →
  datetime.new (datetime.year d) (datetime.month d) (datetime.day d)
    (datetime.hour d) (datetime.minute d) (datetime.second d) 0 tz
  = Return (datetime.mk_datetime (datetime.year d) (datetime.month d)
              (datetime.day d) (datetime.hour d) (datetime.minute d)
              (datetime.second d) 0 tz).
Proof.
  intros Hv. destruct (valid_bounds d Hv) as (Hy & Hm & Hd & Hh & Hmi & Hs).
  unfold datetime.new. cbn [forallb].
  rewrite !fits_int_small by lia. cbn [andb].
  unfold datetime.valid in Hv. apply andb_true_iff in Hv as [Hvd Hvt].
  by rewrite Hvd, (valid_time_zero_us _ _ _ _ Hvt).
Qed.

(** X1. For every valid date and time, whatever its microseconds and time
    zone, the token [_setmetadates] writes reads back through [_metadates]
    as the same date and time with zero microseconds and no time zone. *)
Theorem setmetadates_drops_microseconds_and_zone (kwrd : string) (d : datetime) :
  datetime.valid d = true →
  _metadates
    (Py.split_ws (Py.drop (2 + String.length kwrd) (_setmetadates kwrd d)))
  = Return (to_seconds_naive d).
Proof.
  intros Hv.
  destruct (valid_bounds d Hv) as (Hy & Hm & Hd & Hh & Hmi & Hs).
  unfold _setmetadates.
  replace (2 + String.length kwrd)%nat
    with (String.length ("-" +:+ kwrd +:+ "=")).
  2:{ rewrite sapp_cons, sapp_nil_l. cbn [String.length]. rewrite slength_app.
      cbn [String.length]. lia. }
  rewrite sdrop_app, strftime_shape by done.
  rewrite split_ws_app by (first [apply triple_nonempty|apply triple_notspace|done]).
  rewrite split_ws_word by (first [apply triple_nonempty|apply triple_notspace]).
  unfold _metadates, _metadates_body. cbn [Py.index lookup list_lookup].
  cbn [mbind result_bind].
  rewrite (triple_parse 3), (triple_parse 1)
    by (first [change (10 ^ Z.of_nat 4) with 10000
              |change (10 ^ Z.of_nat 2) with 100]; lia).
  cbn [Py.index lookup list_lookup mbind result_bind].
  by rewrite (new_valid d None Hv).
Qed.

Lemma setmetadates_drops_microseconds_and_zone_witness :
  _metadates
    (Py.split_ws
       (Py.drop (2 + String.length "QuickTime:CreateDate")
          (_setmetadates "QuickTime:CreateDate"
             (datetime.mk_datetime 2021 5 10 14 30 59 123456
                (Some (datetime.mk_timezone 7200))))))
  = Return (datetime.mk_datetime 2021 5 10 14 30 59 0 None).
Proof.
  apply (setmetadates_drops_microseconds_and_zone "QuickTime:CreateDate"
           (datetime.mk_datetime 2021 5 10 14 30 59 123456
              (Some (datetime.mk_timezone 7200)))).
  reflexivity.
Defined.

(** X2. A file date [YYYY:MM:DD HH:MM:SS+hh:mm], with [hh] up to 23 and [mm]
    up to 59, is read by [_filedates] as that local time with the time zone
    [hh] hours and [mm] minutes east of UTC. *)
Theorem filedates_reads_positive_offset (d : datetime) (zh zm : Z) :
  datetime.valid d = true → 0 <= zh <= 23 → 0 <= zm <= 59 →
  _filedates
    (Py.split_ws
       (datetime.strftime d +:+ "+" +:+ Py.fmt_d 2 zh +:+ ":" +:+ Py.fmt_d 2 zm))
  = Return (at_offset d zh zm).
Proof.
  intros Hv Hzh Hzm.
  destruct (valid_bounds d Hv) as (Hy & Hm & Hd & Hh & Hmi & Hs).
  rewrite strftime_shape by done.
  rewrite !(fmt_d_zfill 1) by (change (10 ^ Z.of_nat 2) with 100; lia).
  set (date := Py.zfill 4 (datetime.year d) +:+ _).
  set (time := Py.zfill 2 (datetime.hour d) +:+ _).
  set (off := Py.zfill 2 zh +:+ String ":" (Py.zfill 2 zm)).
  replace ((date +:+ String " " time) +:+ "+" +:+ Py.zfill 2 zh +:+ ":" +:+ Py.zfill 2 zm)
    with (date +:+ String " " (time +:+ String "+" off)).
  2:{ rewrite !sapp_assoc. rewrite sapp_cons. reflexivity. }
  assert (Htime : all_chars notspace (time +:+ String "+" off) = true).
  { rewrite all_chars_app. subst time. rewrite triple_notspace.
    cbn [all_chars andb]. change (notspace "+") with true. cbn [andb].
    subst off. rewrite all_chars_app, zfill_notspace. cbn [all_chars andb].
    change (notspace ":") with true. cbn [andb]. apply zfill_notspace. }
  assert (Hne : time +:+ String "+" off ≠ EmptyString).
  { subst time. pose proof (triple_nonempty 1 (datetime.hour d)
      (datetime.minute d) (datetime.second d)) as H.
    destruct (Py.zfill 2 (datetime.hour d) +:+ _); [done|].
    by rewrite sapp_cons. }
  rewrite split_ws_app by (first [apply triple_nonempty|apply triple_notspace|done]).
  rewrite split_ws_word by done.
  unfold _filedates. cbn [Py.index lookup list_lookup mbind result_bind].
  subst date. rewrite (triple_parse 3)
    by (first [change (10 ^ Z.of_nat 4) with 10000
              |change (10 ^ Z.of_nat 2) with 100]; lia).
  cbn [mbind result_bind].
  rewrite split_app by (subst time; apply triple_no_plus).
  rewrite split_whole.
  2:{ subst off. rewrite all_chars_app, zfill_no_plus. cbn [all_chars andb].
      change (differs "+" ":") with true. cbn [andb]. apply zfill_no_plus. }
  cbn [Py.index lookup list_lookup mbind result_bind].
  subst time. rewrite (triple_parse 1)
    by (change (10 ^ Z.of_nat 2) with 100; lia).
  cbn [Py.index lookup list_lookup mbind result_bind].
  subst off. rewrite pair_parse by lia.
  cbn [Py.index lookup list_lookup mbind result_bind].
  rewrite !(int_zfill 1) by (change (10 ^ Z.of_nat 2) with 100; lia).
  cbn [mbind result_bind].
  unfold datetime.timedelta.
  replace ((zh * 3600 + zm * 60) / 86400) with 0
    by (symmetry; apply Z.div_small; lia).
  cbn [mbind result_bind Z.leb Z.compare andb].
  unfold datetime.new_timezone.
  replace ((-86400 <? zh * 3600 + zm * 60) && (zh * 3600 + zm * 60 <? 86400))
    with true by (symmetry; rewrite andb_true_iff, !Z.ltb_lt; lia).
  cbn [mbind result_bind].
  by rewrite (new_valid d _ Hv).
Qed.

Lemma filedates_reads_positive_offset_witness :
  _filedates (Py.split_ws "2021:05:10 14:30:00+02:00")
  = Return (datetime.mk_datetime 2021 5 10 14 30 0 0
              (Some (datetime.mk_timezone 7200))).
Proof.
  apply (filedates_reads_positive_offset may_2021 2 0); [reflexivity|lia|lia].
Defined.

(** Peel the first step of a chain of binds that is known to return. *)
Ltac step H :=
  match type of H with
  | (mbind _ ?r) = Return _ =>
      let x := fresh "x" in
      let Hx := fresh "Hx" in
      destruct r as [x|] eqn:Hx; cbn [mbind result_bind] in H; [|discriminate H]
  end.

Lemma new_returns y m d h mi s us tz dt :
  datetime.new y m d h mi s us tz = Return dt →
  dt = datetime.mk_datetime y m d h mi s us tz ∧ datetime.valid dt = true.
Proof.
  unfold datetime.new. repeat case_match; try discriminate.
  intros [= <-]. split; [done|]. unfold datetime.valid. by cbn.
Qed.

Lemma new_timezone_returns off tz :
  datetime.new_timezone off = Return tz →
  tz = datetime.mk_timezone off ∧ -86400 < off < 86400.
Proof.
  unfold datetime.new_timezone. case_match eqn:H; [|discriminate].
  intros [= <-]. apply andb_true_iff in H as [?%Z.ltb_lt ?%Z.ltb_lt]. done.
Qed.

(** X3. Whatever [_metadates] returns is a valid date and time with zero
    microseconds and no time zone, and the only exceptions it lets through
    are [IndexError] and [OverflowError]. *)
Theorem metadates_result_is_naive_and_valid (values : list string) :
  (∀ d, _metadates values = Return d →
        datetime.valid d = true ∧ datetime.microsecond d = 0
        ∧ datetime.tzinfo d = None)
  ∧ (∀ e, _metadates values = Raise e → e = IndexError ∨ e = OverflowError).
Proof.
  split.
  - intros d. rewrite metadates_of_body.
    destruct (_metadates_body values) as [d'|e] eqn:Hb.
    + intros [= ->]. unfold _metadates_body in Hb.
      repeat step Hb. apply new_returns in Hb as [-> Hv]. done.
    + destruct e; try discriminate. intros [= <-]. done.
  - intros e He. destruct (metadates_cases values) as [[d Hd]|[H|H]];
      rewrite He in *; simplify_eq; auto.
Qed.

Lemma metadates_result_is_naive_and_valid_witness :
  datetime.valid sentinel = true ∧ datetime.microsecond sentinel = 0
  ∧ datetime.tzinfo sentinel = None.
Proof.
  apply (proj1 (metadates_result_is_naive_and_valid ["not:a:date"; "garbage"])).
  vm_compute. reflexivity.
Defined.

(** X4. Whatever [_filedates] returns is a valid date and time with zero
    microseconds and a time zone whose offset lies strictly between -24h and
    24h: there is no result without a zone and no fallback value. *)
Theorem filedates_result_has_offset (values : list string) (d : datetime) :
  _filedates values = Return d →
  datetime.valid d = true ∧ datetime.microsecond d = 0
  ∧ ∃ tz, datetime.tzinfo d = Some tz
          ∧ -86400 < datetime.utcoffset tz < 86400.
Proof.
  intros H. unfold _filedates in H.
  repeat step H. cbv zeta in H. repeat step H.
  apply new_returns in H as [-> Hv].
  match goal with Hz : datetime.new_timezone _ = Return _ |- _ =>
    apply new_timezone_returns in Hz as [-> Hoff] end.
  split; [done|]. split; [done|]. eexists. split; [reflexivity|done].
Qed.

Lemma filedates_result_has_offset_witness :
  ∃ tz, datetime.tzinfo (at_offset may_2021 2 0) = Some tz
        ∧ -86400 < datetime.utcoffset tz < 86400.
Proof.
  refine (proj2 (proj2 (filedates_result_has_offset
    (Py.split_ws "2021:05:10 14:30:00+02:00") (at_offset may_2021 2 0) _))).
  vm_compute. reflexivity.
Defined.

(** X5. With fewer than two tokens, or with a time token that holds no plus
    sign, [_filedates] does not return: it raises [IndexError] or
    [ValueError]. *)
Theorem filedates_needs_offset (values : list string) :
  (length values < 2)%nat
  ∨ (∃ v0 v1 rest, values = v0 :: v1 :: rest
                   ∧ all_chars (differs "+") v1 = true) →
  _filedates values = Raise IndexError ∨ _filedates values = Raise ValueError.
Proof.
  intros H. unfold _filedates.
  destruct values as [|v0 [|v1 rest]].
  - by left.
  - cbn [Py.index lookup list_lookup mbind result_bind].
    destruct (rmap_int_cases (Py.split ":" v0)) as [[ymd ->]| ->]; auto.
  - destruct H as [H|(? & ? & ? & [= <- <- <-] & Hplus)]; [cbn in H; lia|].
    cbn [Py.index lookup list_lookup mbind result_bind].
    destruct (rmap_int_cases (Py.split ":" v0)) as [[ymd ->]| ->]; [|auto].
    cbn [mbind result_bind]. rewrite (split_whole _ _ Hplus).
    cbn [Py.index lookup list_lookup mbind result_bind].
    destruct (rmap_int_cases (Py.split ":" v1)) as [[hms ->]| ->]; auto.
Qed.

Lemma filedates_needs_offset_witness :
  _filedates ["2021:05:10"; "14:30:00"] = Raise IndexError
  ∨ _filedates ["2021:05:10"; "14:30:00"] = Raise ValueError.
Proof.
  apply (filedates_needs_offset ["2021:05:10"; "14:30:00"]).
  right. exists "2021:05:10", "14:30:00", []. split; reflexivity.
Defined.

(** X6. With no file loaded, or with exactly two tokens in the commands,
    [save_file] returns false, leaves the session as it was, runs no program
    and changes no file, whatever its arguments. *)
Theorem save_file_refuses_without_edits (E : Externals)
  (output_filename : string) (overwrite : bool) (timeout : Z)
  (self : PyKernel) (w : World) :
  _filepath self = None ∨ length (_commands self) = 2%nat →
  ∃ w', save_file E output_filename overwrite timeout self w
          = (Return false, self, w')
        ∧ files w' = files w ∧ executed w' = executed w.
Proof.
  intros H. unfold save_file, get_self, mbind, M_bind.
  destruct (_filepath self) as [fp|] eqn:Hfp.
  - destruct H as [? | ->]; [done|]. cbn [Nat.eqb]. run_M. eauto.
  - run_M. destruct (_log_enabled self); eauto.
Qed.

Lemma save_file_refuses_without_edits_witness :
  ∃ w', save_file quiet_tool "" true 30 (loaded photo ∅) photo_world
          = (Return false, loaded photo ∅, w')
        ∧ files w' = files photo_world ∧ executed w' = executed photo_world.
Proof.
  apply (save_file_refuses_without_edits quiet_tool "" true 30
           (loaded photo ∅) photo_world).
  right. reflexivity.
Defined.

(** X7. Loading a path that is no existing file raises [AssertionError]
    before anything else happens: the session keeps its file, fields and
    commands, and no program is run. *)
Theorem load_file_missing_file (E : Externals) (file2load : Path)
  (timeout : Z) (self : PyKernel) (w : World) :
  pathlib.str file2load ∉ files w →
  load_file E file2load timeout self w = (Raise AssertionError, self, w).
Proof.
  intros H. run_M. rewrite (bool_decide_eq_false_2 _ H). reflexivity.
Qed.

Lemma load_file_missing_file_witness :
  load_file quiet_tool (mk_Path "/photos" "b.jpg") 30
    (loaded photo ∅) photo_world
  = (Raise AssertionError, loaded photo ∅, photo_world).
Proof.
  apply (load_file_missing_file quiet_tool (mk_Path "/photos" "b.jpg") 30
           (loaded photo ∅) photo_world).
  vm_compute. discriminate.
Defined.

(** X8. Loading an existing file runs exactly [tool -G -J path] and records
    the path whatever follows. If the program raises, or its output lacks
    the version marker, the fields and the commands are empty; with the
    marker the commands are the two-token baseline and the fields are
    exactly what the JSON decoder gives, or empty when the decoder raises.
    Nothing of the previous fields or commands survives. *)
Theorem load_file_replaces_session (E : Externals) (file2load : Path)
  (timeout : Z) (self : PyKernel) (w : World)
  (r : result unit) (self' : PyKernel) (w' : World) :
  load_file E file2load timeout self w = (r, self', w') →
  pathlib.str file2load ∈ files w →
  _filepath self' = Some file2load
  ∧ ∃ out,
      subprocess_run E (load_command self file2load) timeout (files w)
        = (out, files w')
      ∧ executed w' = executed w ++ [(load_command self file2load, out)]
      ∧ match out with
        | Raise e => r = Raise e ∧ _metadata self' = ∅ ∧ _commands self' = []
        | Return raw =>
            if Py.contains Keywords.ExifTool.tool_version raw then
              _commands self' = [_exiftool_path self; "-P"]
              ∧ match json_loads_0 E raw with
                | Return mdta => r = Return tt ∧ _metadata self' = mdta
                | Raise e => r = Raise e ∧ _metadata self' = ∅
                end
            else r = Return tt ∧ _metadata self' = ∅ ∧ _commands self' = []
        end.
Proof.
  intros Hrun Hin. unfold load_command. run_M.
  rewrite (bool_decide_eq_true_2 _ Hin) in Hrun. unfold Py.assert in Hrun.
  proj.
  repeat (case_match; simplify_eq; proj);
    (split; [done|]); eexists; (split; [first [reflexivity|eassumption]|]);
    (split; [done|]);
    cbn beta iota; repeat (case_match; simplify_eq); done.
Qed.

Lemma load_file_replaces_session_witness :
  _filepath
    (load_file quiet_tool photo 30 garbage_session photo_world).1.2
  = Some photo.
Proof.
  refine (proj1 (load_file_replaces_session quiet_tool photo 30
    garbage_session photo_world
    (load_file quiet_tool photo 30 garbage_session photo_world).1.1 _
    (load_file quiet_tool photo 30 garbage_session photo_world).2 _ _)).
  - vm_compute. reflexivity.
  - vm_compute. reflexivity.
Defined.

(** X9. After a load that returned with the version marker in the output, a
    [save_file] with any arguments returns false without running the program
    or changing a file. *)
Theorem save_after_successful_load_refused (E : Externals) (file2load : Path)
  (t t' : Z) (output_filename : string) (overwrite : bool)
  (self : PyKernel) (w : World) (self1 : PyKernel) (w1 : World)
  (args : list string) (raw : string) :
  load_file E file2load t self w = (Return tt, self1, w1) →
  executed w1 = executed w ++ [(args, Return raw)] →
  Py.contains Keywords.ExifTool.tool_version raw = true →
  ∃ w2, save_file E output_filename overwrite t' self1 w1
          = (Return false, self1, w2)
        ∧ files w2 = files w1 ∧ executed w2 = executed w1.
Proof.
  intros Hload Hex Hm. apply save_file_nothing_to_do. right.
  by rewrite (load_file_commands _ _ _ _ _ _ _ _ _ Hload Hex), Hm.
Qed.

Lemma save_after_successful_load_refused_witness :
  ∃ w2, save_file quiet_tool "" true 30
          (load_file quiet_tool photo 30 garbage_session photo_world).1.2
          (load_file quiet_tool photo 30 garbage_session photo_world).2
        = (Return false,
           (load_file quiet_tool photo 30 garbage_session photo_world).1.2, w2)
        ∧ files w2
          = files (load_file quiet_tool photo 30 garbage_session photo_world).2
        ∧ executed w2
          = executed (load_file quiet_tool photo 30 garbage_session photo_world).2.
Proof.
  apply (save_after_successful_load_refused quiet_tool photo 30 30 "" true
           garbage_session photo_world _ _
           ["exiftool"; "-G"; "-J"; "/photos/a.jpg"]
           "[{ExifTool:ExifToolVersion: 12.4}]").
  - vm_compute. reflexivity.
  - vm_compute. reflexivity.
  - vm_compute. reflexivity.
Defined.

Lemma same_name_test output_filename fp :
  same_name output_filename fp ↔
  (negb (Py.truthy_str output_filename)
   || bool_decide (output_filename = name fp)) = true.
Proof.
  unfold same_name. rewrite orb_true_iff, bool_decide_eq_true.
  destruct output_filename; cbn [Py.truthy_str negb]; intuition congruence.
Qed.

Lemma not_same_name_test output_filename fp :
  ¬ same_name output_filename fp →
  (negb (Py.truthy_str output_filename)
   || bool_decide (output_filename = name fp)) = false.
Proof.
  intros H. destruct (_ || _) eqn:Ht; [|done].
  by apply same_name_test in Ht.
Qed.

(** Unfold a call of [save_file] in [H] past its two guards. *)
Ltac enter_save H fp Hfp Hlen :=
  unfold save_file in H;
  (unfold get_self, mbind at 1, M_bind at 1 in H);
  rewrite Hfp in H;
  rewrite (proj2 (Nat.eqb_neq _ _) Hlen) in H.

(** X10. When [save_file] overwrites under the same name and returns, the
    [_original] backup of the loaded file does not exist afterwards, and the
    last queued token is the path of the loaded file. *)
Theorem save_in_place_removes_backup (E : Externals) (output_filename : string)
  (timeout : Z) (self : PyKernel) (w : World) (fp : Path)
  (b : bool) (self' : PyKernel) (w' : World) :
  _filepath self = Some fp →
  length (_commands self) ≠ 2%nat →
  same_name output_filename fp →
  save_file E output_filename true timeout self w = (Return b, self', w') →
  (pathlib.str (backup_path fp) ∉ files w')
  ∧ last (_commands self') = Some (pathlib.str fp).
Proof.
  intros Hfp Hlen Hsame Hrun. enter_save Hrun fp Hfp Hlen.
  rewrite (proj1 (same_name_test _ _) Hsame) in Hrun.
  run_M. rewrite Hfp in Hrun. cbn [negb] in Hrun. proj.
  unfold backup_path.
  repeat (case_match; simplify_eq; proj);
    (split; [set_solver|by rewrite last_snoc]).
Qed.

Lemma save_in_place_removes_backup_witness :
  pathlib.str (backup_path photo)
  ∉ files (save_file updating_tool "" true 30
             (commands_append "-EXIF:DateTimeOriginal=2021:05:10 14:30:00"
                (loaded photo ∅)) photo_world).2.
Proof.
  refine (proj1 (save_in_place_removes_backup updating_tool "" 30
    (commands_append "-EXIF:DateTimeOriginal=2021:05:10 14:30:00"
       (loaded photo ∅)) photo_world photo true _ _ _ _ _ _)).
  - reflexivity.
  - vm_compute. lia.
  - left. reflexivity.
  - vm_compute. reflexivity.
Defined.

Lemma save_samename_copy_timeout E t1 t2 self w :
  __save_samename E false t1 self w = __save_samename E false t2 self w.
Proof.
  unfold __save_samename, get_self, mbind, M_bind.
  destruct (_filepath self); reflexivity.
Qed.

(** X11. On the same-name path without [overwrite] the [timeout] argument
    has no effect: [__save_samename] calls [__save_newname] without it, so
    the program always runs with the default of 30. *)
Theorem save_copy_ignores_timeout (E : Externals) (output_filename : string)
  (t1 t2 : Z) (self : PyKernel) (w : World) (fp : Path) :
  _filepath self = Some fp →
  same_name output_filename fp →
  save_file E output_filename false t1 self w
  = save_file E output_filename false t2 self w.
Proof.
  intros Hfp Hsame. unfold save_file, get_self, mbind, M_bind.
  rewrite Hfp. destruct (length (_commands self) =? 2)%nat; [reflexivity|].
  rewrite (proj1 (same_name_test _ _) Hsame).
  by rewrite (save_samename_copy_timeout E t1 t2).
Qed.

Lemma save_copy_ignores_timeout_witness :
  save_file quiet_tool "" false 1
    (commands_append "-EXIF:DateTimeOriginal=2021:05:10 14:30:00"
       (loaded photo ∅)) photo_world
  = save_file quiet_tool "" false 3600
      (commands_append "-EXIF:DateTimeOriginal=2021:05:10 14:30:00"
         (loaded photo ∅)) photo_world.
Proof.
  apply (save_copy_ignores_timeout quiet_tool "" 1 3600 _ photo_world photo).
  - reflexivity.
  - left. reflexivity.
Defined.

(** X12. Whenever [save_file] runs the program, the command line is the
    queued commands followed by either the path of the loaded file alone
    (same name, overwrite) or a [-filename=] directive and that path; its
    last word is the path of the loaded file, and the session keeps the
    whole line as its commands. *)
Theorem save_file_command_line (E : Externals) (output_filename : string)
  (overwrite : bool) (timeout : Z) (self : PyKernel) (w : World)
  (r : result bool) (self' : PyKernel) (w' : World) (fp : Path)
  (args : list string) (out : result string) :
  _filepath self = Some fp →
  save_file E output_filename overwrite timeout self w = (r, self', w') →
  executed w' = executed w ++ [(args, out)] →
  args = _commands self'
  ∧ last args = Some (pathlib.str fp)
  ∧ ((same_name output_filename fp ∧ overwrite = true
      ∧ args = _commands self ++ [pathlib.str fp])
     ∨ ∃ new_file_path,
         args = _commands self
                ++ ["-filename=" +:+ pathlib.str new_file_path; pathlib.str fp]).
Proof.
  intros Hfp Hrun Hex.
  unfold save_file in Hrun. unfold get_self, mbind at 1, M_bind at 1 in Hrun.
  rewrite Hfp in Hrun.
  destruct (length (_commands self) =? 2)%nat.
  { run_M. simplify_eq; proj. exfalso. revert Hex; clear; intros H.
    apply (f_equal length) in H; rewrite length_app in H; cbn in H; lia. }
  destruct (negb (Py.truthy_str output_filename)
            || bool_decide (output_filename = name fp)) eqn:Hsame.
  - apply same_name_test in Hsame. destruct overwrite.
    + run_M. rewrite Hfp in Hrun. cbn [negb] in Hrun. proj.
      repeat (case_match; simplify_eq; proj);
        try (apply app_inv_head in Hex; simplify_eq);
        (split; [done|]); (split; [by rewrite last_snoc|]); left; done.
    + run_M. rewrite Hfp in Hrun. cbn [negb] in Hrun. proj.
      rewrite Hfp in Hrun. proj.
      repeat (case_match; simplify_eq; proj);
        try (apply app_inv_head in Hex; simplify_eq);
        rewrite <- app_assoc; cbn [app];
        (split; [done|]); (split; [by rewrite last_app|]); right;
        eexists; reflexivity.
  - run_M. rewrite Hfp in Hrun. proj.
    repeat (case_match; simplify_eq; proj);
      try congruence;
      try (apply app_inv_head in Hex; simplify_eq);
      rewrite <- app_assoc; cbn [app];
      (split; [done|]); (split; [by rewrite last_app|]); right;
      eexists; reflexivity.
Qed.

Lemma save_file_command_line_witness :
  last ["exiftool"; "-P"; "-EXIF:DateTimeOriginal=2021:05:10 14:30:00";
        "/photos/a.jpg"] = Some (pathlib.str photo).
Proof.
  refine (proj1 (proj2 (save_file_command_line updating_tool "" true 30
    (commands_append "-EXIF:DateTimeOriginal=2021:05:10 14:30:00"
       (loaded photo ∅)) photo_world (Return true) _ _ photo
    _ (Return "    1 image files updated") _ _ _))).
  - reflexivity.
  - vm_compute. reflexivity.
  - vm_compute. reflexivity.
Defined.

Ltac no_growth H :=
  exfalso; apply (f_equal length) in H; rewrite length_app in H;
  cbn [length] in H; lia.

(** X13. Without [overwrite], [save_file] deletes nothing itself: the
    program runs on the files as they were before the call, and the files
    after the call are the ones the program left. *)
Theorem save_without_overwrite_deletes_nothing (E : Externals)
  (output_filename : string) (timeout : Z) (self : PyKernel) (w : World)
  (r : result bool) (self' : PyKernel) (w' : World)
  (args : list string) (out : result string) :
  save_file E output_filename false timeout self w = (r, self', w') →
  executed w' = executed w ++ [(args, out)] →
  ∃ t, subprocess_run E args t (files w) = (out, files w').
Proof.
  intros Hrun Hex.
  unfold save_file in Hrun. unfold get_self, mbind at 1, M_bind at 1 in Hrun.
  destruct (_filepath self) as [fp|] eqn:Hfp.
  2:{ run_M. repeat (case_match; simplify_eq; proj); no_growth Hex. }
  destruct (length (_commands self) =? 2)%nat.
  { run_M. simplify_eq; proj. no_growth Hex. }
  destruct (negb (Py.truthy_str output_filename)
            || bool_decide (output_filename = name fp)).
  - run_M. rewrite Hfp in Hrun. cbn [negb] in Hrun. proj.
    rewrite Hfp in Hrun. proj.
    repeat (case_match; simplify_eq; proj);
      try (apply app_inv_head in Hex; simplify_eq); eauto.
  - run_M. rewrite Hfp in Hrun. proj.
    repeat (case_match; simplify_eq; proj);
      try (apply app_inv_head in Hex; simplify_eq); eauto.
Qed.

Lemma save_without_overwrite_deletes_nothing_witness :
  ∃ t, subprocess_run updating_tool
         ["exiftool"; "-P"; "-EXIF:DateTimeOriginal=2021:05:10 14:30:00";
          "-filename=/photos/1-b.jpg"; "/photos/a.jpg"] t (files photo_world)
       = (Return "    1 image files updated",
          files (save_file updating_tool "b.jpg" false 30
                   edited_photo photo_world).2).
Proof.
  apply (save_without_overwrite_deletes_nothing updating_tool "b.jpg" 30
           edited_photo photo_world
           (save_file updating_tool "b.jpg" false 30 edited_photo photo_world).1.1
           (save_file updating_tool "b.jpg" false 30 edited_photo photo_world).1.2).
  - vm_compute. reflexivity.
  - vm_compute. reflexivity.
Defined.

(** X14. With [overwrite] and a new name, the file of that name in the
    directory of the loaded file is removed first; the name iterator and the
    program then work on the files without it. *)
Theorem save_new_name_overwrite_deletes_target_first (E : Externals)
  (output_filename : string) (timeout : Z) (self : PyKernel) (w : World)
  (fp : Path) (r : result bool) (self' : PyKernel) (w' : World)
  (args : list string) (out : result string) :
  _filepath self = Some fp →
  ¬ same_name output_filename fp →
  save_file E output_filename true timeout self w = (r, self', w') →
  executed w' = executed w ++ [(args, out)] →
  let target := pathlib.joinpath (parent fp) output_filename in
  let fs := files w ∖ {[ pathlib.str target ]} in
  args = _commands self ++
         ["-filename=" +:+ pathlib.str (itername E fs target); pathlib.str fp]
  ∧ subprocess_run E args timeout fs = (out, files w').
Proof.
  intros Hfp Hsame Hrun Hex target fs. subst target fs.
  unfold save_file in Hrun. unfold get_self, mbind at 1, M_bind at 1 in Hrun.
  rewrite Hfp in Hrun.
  destruct (length (_commands self) =? 2)%nat.
  { run_M. simplify_eq; proj. no_growth Hex. }
  rewrite (not_same_name_test _ _ Hsame) in Hrun.
  run_M. rewrite Hfp in Hrun. proj.
  destruct (bool_decide (pathlib.str (pathlib.joinpath (parent fp) output_filename)
                         ∈ files w)) eqn:Hin.
  - cbn beta iota in Hrun. rewrite Hin in Hrun. proj.
    repeat (case_match; simplify_eq; proj);
      try (apply app_inv_head in Hex; simplify_eq);
      rewrite <- app_assoc; cbn [app]; (split; [done|]);
      rewrite <- app_assoc in *; cbn [app] in *; done.
  - apply bool_decide_eq_false in Hin.
    assert (Hfs : files w ∖ {[pathlib.str (pathlib.joinpath (parent fp) output_filename)]}
                  = files w) by set_solver.
    rewrite Hfs.
    repeat (case_match; simplify_eq; proj);
      try (apply app_inv_head in Hex; simplify_eq);
      rewrite <- app_assoc; cbn [app]; (split; [done|]);
      rewrite <- app_assoc in *; cbn [app] in *; done.
Qed.

Lemma save_new_name_overwrite_deletes_target_first_witness :
  subprocess_run updating_tool
    ["exiftool"; "-P"; "-EXIF:DateTimeOriginal=2021:05:10 14:30:00";
     "-filename=/photos/1-b.jpg"; "/photos/a.jpg"] 30
    (files photo_world ∖ {[ "/photos/b.jpg" ]})
  = (Return "    1 image files updated",
     files (save_file updating_tool "b.jpg" true 30 edited_photo photo_world).2).
Proof.
  refine (proj2 (save_new_name_overwrite_deletes_target_first updating_tool
    "b.jpg" 30 edited_photo photo_world photo
    (save_file updating_tool "b.jpg" true 30 edited_photo photo_world).1.1
    (save_file updating_tool "b.jpg" true 30 edited_photo photo_world).1.2
    (save_file updating_tool "b.jpg" true 30 edited_photo photo_world).2
    _ _ _ _ _ _)).
  - reflexivity.
  - intros [H|H]; discriminate H.
  - vm_compute. reflexivity.
  - vm_compute. reflexivity.
Defined.

(** X15. [exiftool_detected] runs [tool -ver] once and leaves the session
    alone; it is true exactly when the program gave output, false exactly
    when running it raised [FileNotFoundError], and every other exception (a
    timeout for one) goes on to the caller. *)
Theorem exiftool_detected_outcome (E : Externals) (self : PyKernel) (w : World)
  (r : result bool) (self' : PyKernel) (w' : World) :
  exiftool_detected E self w = (r, self', w') →
  self' = self
  ∧ ∃ out, subprocess_run E [_exiftool_path self; "-ver"] 30 (files w)
             = (out, files w')
      ∧ executed w' = executed w ++ [([_exiftool_path self; "-ver"], out)]
      ∧ (r = Return true ↔ ∃ text, out = Return text)
      ∧ (r = Return false ↔ out = Raise FileNotFoundError)
      ∧ (∀ e, r = Raise e ↔ out = Raise e ∧ e ≠ FileNotFoundError).
Proof.
  unfold exiftool_detected, try_except_M, exiftool_version. run_M. proj.
  destruct (subprocess_run E _ 30 (files w)) as [[text|e] fs] eqn:Hsub.
  - intros [= <- <- <-]. split; [done|]. eexists. split; [reflexivity|].
    split; [done|]. naive_solver.
  - cbn [list_find]. destruct (decide (e = (FileNotFoundError, _).1)) as [Heq|Hne];
      cbn [fst] in *; [subst e|]; cbn; intros [= <- <- <-];
      (split; [done|]); eexists; (split; [reflexivity|]); (split; [done|]);
      naive_solver.
Qed.

Lemma exiftool_detected_outcome_witness :
  (exiftool_detected broken_tool (loaded photo ∅) photo_world).1.2
  = loaded photo ∅.
Proof.
  refine (proj1 (exiftool_detected_outcome broken_tool (loaded photo ∅)
    photo_world
    (exiftool_detected broken_tool (loaded photo ∅) photo_world).1.1
    (exiftool_detected broken_tool (loaded photo ∅) photo_world).1.2
    (exiftool_detected broken_tool (loaded photo ∅) photo_world).2 _)).
  vm_compute. reflexivity.
Defined.

Lemma has_date_true_key key self :
  has_date key self = Return true → Py.has_key (_metadata self) key = true.
Proof. unfold has_date. by destruct (Py.has_key _ _). Qed.

Lemma has_date_true_get key self :
  has_date key self = Return true →
  ∃ d, (v ← Py.getitem (_metadata self) key; _metadates (Py.split_ws v))
       = Return d.
Proof.
  destruct (_metadata self !! key) as [v|] eqn:Hk.
  - rewrite (has_date_present _ _ _ Hk). unfold Py.getitem. rewrite Hk.
    cbn [mbind result_bind].
    destruct (_metadates (Py.split_ws v)) as [d|[]]; try discriminate; eauto.
  - by rewrite (has_date_absent _ _ Hk).
Qed.

(** X16. A date check that answers true implies the matching field check:
    for the EXIF original date, for the QuickTime creation date, and for the
    two dispatcher checks. *)
Theorem has_date_value_implies_field (self : PyKernel) :
  (has_exif_original_date self = Return true →
   has_exif_date_original_field self = true)
  ∧ (has_mov_create_date self = Return true →
     has_mov_create_date_field self = true)
  ∧ (has_metadata_date_original self = Return true →
     has_metadata_date_original_field self = Return true).
Proof.
  change has_exif_original_date with (has_date Keywords.Exif.datetime_original).
  change has_mov_create_date with (has_date Keywords.QuickTime.create_date).
  refine (conj _ (conj _ _)).
  - apply has_date_true_key.
  - apply has_date_true_key.
  - unfold has_metadata_date_original, has_metadata_date_original_field.
    change has_exif_original_date with (has_date Keywords.Exif.datetime_original).
    change has_mov_create_date with (has_date Keywords.QuickTime.create_date).
    unfold has_exif_date_original_field, has_mov_create_date_field.
    destruct (has_readable_metadate self) as [[]|]; cbn [mbind result_bind negb];
      try discriminate.
    destruct (has_date_cases Keywords.Exif.datetime_original self)
      as [He|[He|He]]; rewrite He; cbn [mbind result_bind]; try discriminate.
    + by rewrite (has_date_true_key _ _ He).
    + destruct (has_date_cases Keywords.QuickTime.create_date self)
        as [Hm|[Hm|Hm]]; rewrite Hm; cbn [mbind result_bind]; try discriminate.
      rewrite (has_date_true_key _ _ Hm). by destruct (Py.has_key _ _).
Qed.

Lemma has_date_value_implies_field_witness :
  has_metadata_date_original_field mov_session = Return true.
Proof.
  apply (proj2 (proj2 (has_date_value_implies_field mov_session))).
  vm_compute. reflexivity.
Defined.

(** X17. The advice in the error message of [get_date_original] is sound:
    when [has_metadata_date_original] is true, [get_date_original] returns a
    date. *)
Theorem has_original_date_makes_get_safe (self : PyKernel) :
  has_metadata_date_original self = Return true →
  ∃ d, get_date_original self = Return d.
Proof.
  unfold has_metadata_date_original, get_date_original.
  change has_exif_original_date with (has_date Keywords.Exif.datetime_original).
  change has_mov_create_date with (has_date Keywords.QuickTime.create_date).
  destruct (has_readable_metadate self) as [[]|]; cbn [mbind result_bind negb];
    try discriminate.
  destruct (has_date_cases Keywords.Exif.datetime_original self)
    as [He|[He|He]]; rewrite He; cbn [mbind result_bind]; try discriminate.
  - intros _. apply (has_date_true_get _ _ He).
  - destruct (has_date_cases Keywords.QuickTime.create_date self)
      as [Hm|[Hm|Hm]]; rewrite Hm; cbn [mbind result_bind]; try discriminate.
    intros _. apply (has_date_true_get _ _ Hm).
Qed.

Lemma has_original_date_makes_get_safe_witness :
  ∃ d, get_date_original mov_session = Return d.
Proof.
  apply (has_original_date_makes_get_safe mov_session).
  vm_compute. reflexivity.
Defined.

(** X18. On a loaded file whose extension is in no readable format both
    dispatcher checks are false whatever the fields hold; with no file
    loaded the four extension-based checks raise [AssertionError]. *)
Theorem unreadable_extension_has_no_date (self : PyKernel) :
  (∀ p, _filepath self = Some p →
        extension_of p ∉ _readable_formats self →
        has_metadata_date_original self = Return false
        ∧ has_metadata_date_original_field self = Return false)
  ∧ (_filepath self = None →
     has_readable_metadate self = Raise AssertionError
     ∧ has_editable_metadate self = Raise AssertionError
     ∧ has_metadata_date_original self = Raise AssertionError
     ∧ has_metadata_date_original_field self = Raise AssertionError).
Proof.
  unfold has_metadata_date_original, has_metadata_date_original_field,
    has_readable_metadate, has_editable_metadate.
  split.
  - intros p -> Hext. rewrite (bool_decide_eq_false_2 _ Hext). done.
  - intros ->. done.
Qed.

Lemma unreadable_extension_has_no_date_witness :
  has_metadata_date_original
    (loaded (mk_Path "/films" "clip.avi")
       {[ "QuickTime:CreateDate" := "2020:01:01 00:00:00" ]})
  = Return false.
Proof.
  refine (proj1 (proj1 (unreadable_extension_has_no_date
    (loaded (mk_Path "/films" "clip.avi")
       {[ "QuickTime:CreateDate" := "2020:01:01 00:00:00" ]}))
    (mk_Path "/films" "clip.avi") eq_refl _)).
  vm_compute. intros H. repeat (apply elem_of_cons in H as [H|H]; [discriminate H|]).
  by apply elem_of_nil in H.
Defined.

Lemma formats_of_foldl (flag : BaseKwd → bool) (bases : list BaseKwd)
  (acc : list string) (x : string) :
  x ∈ foldl (fun formats kwrd =>
               if flag kwrd then formats ++ extensions kwrd else formats)
            acc bases
  ↔ x ∈ acc ∨ ∃ k, k ∈ bases ∧ flag k = true ∧ x ∈ extensions k.
Proof.
  revert acc. induction bases as [|k bases IH]; intros acc; cbn [foldl].
  - split; [auto|]. intros [?|(k & Hk & _)]; [done|]. by apply elem_of_nil in Hk.
  - rewrite IH. destruct (flag k) eqn:Hf.
    + rewrite elem_of_app. split.
      * intros [[?|?]|(k' & ? & ? & ?)]; [auto| |].
        -- right. exists k. split; [by left|done].
        -- right. exists k'. split; [by right|done].
      * intros [?|(k' & [->|?]%elem_of_cons & ? & ?)]; [auto|auto|].
        right. by exists k'.
    + split.
      * intros [?|(k' & ? & ? & ?)]; [auto|]. right. exists k'.
        split; [by right|done].
      * intros [?|(k' & [->|?]%elem_of_cons & ? & ?)]; [auto|congruence|].
        right. by exists k'.
Qed.

Lemma formats_of_spec (flag : BaseKwd → bool) (bases : list BaseKwd) (x : string) :
  x ∈ formats_of flag bases ↔
  ∃ k, k ∈ bases ∧ flag k = true ∧ x ∈ extensions k.
Proof.
  unfold formats_of. rewrite formats_of_foldl. split; [|auto].
  intros [H|?]; [|done]. by apply elem_of_nil in H.
Qed.

(** X19. The readable (editable) formats are exactly the extensions of the
    base keywords flagged readable (editable); every editable format is
    readable, and so is every file name [fast_has_editable_metadate]
    accepts. *)
Theorem formats_are_unions_of_extensions (x : string) :
  (x ∈ fast_readable_formats ↔
   ∃ k, k ∈ bases_keywords ∧ readable k = true ∧ x ∈ extensions k)
  ∧ (x ∈ fast_editable_formats ↔
     ∃ k, k ∈ bases_keywords ∧ editable k = true ∧ x ∈ extensions k)
  ∧ (x ∈ fast_editable_formats → x ∈ fast_readable_formats)
  ∧ (∀ p, fast_has_editable_metadate p = true →
          fast_has_readable_metadate p = true).
Proof.
  change fast_readable_formats with (formats_of readable bases_keywords).
  change fast_editable_formats with (formats_of editable bases_keywords).
  assert (Hsub : ∀ y, y ∈ formats_of editable bases_keywords →
                      y ∈ formats_of readable bases_keywords).
  { intros y. rewrite !formats_of_spec. intros (k & Hk & He & Hy).
    exists k. split; [done|]. split; [|done].
    unfold bases_keywords in Hk.
    apply elem_of_cons in Hk as [->|Hk]; [reflexivity|].
    apply elem_of_cons in Hk as [->|Hk]; [reflexivity|].
    by apply elem_of_nil in Hk. }
  refine (conj _ (conj _ (conj (Hsub x) _))).
  - apply formats_of_spec.
  - apply formats_of_spec.
  - intros p. unfold fast_has_editable_metadate, fast_has_readable_metadate.
    change fast_readable_formats with (formats_of readable bases_keywords).
    change fast_editable_formats with (formats_of editable bases_keywords).
    rewrite !bool_decide_eq_true. apply Hsub.
Qed.

Lemma formats_are_unions_of_extensions_witness :
  "MP4" ∈ fast_readable_formats.
Proof.
  apply (proj1 (proj2 (proj2 (formats_are_unions_of_extensions "MP4")))).
  vm_compute. do 6 constructor. constructor.
Defined.

(** X20. On a loaded session with the editable formats of the constructor:
    when [has_editable_metadate] is true, [set_date_original] returns and
    the commands of the session are the old ones followed by exactly one
    token, the EXIF or the QuickTime edit of the date; when it is false,
    [set_date_original] raises [AssertionError] and the session, its
    commands included, is as before.  The advice in its error message is
    sound and complete. *)
Theorem set_date_original_iff_editable (date2add : datetime)
  (self : PyKernel) (w : World) (p : Path) :
  _filepath self = Some p →
  _editable_formats self = fast_editable_formats →
  (has_editable_metadate self = Return true →
   ∃ token self',
     (token = "-EXIF:DateTimeOriginal=" +:+ datetime.strftime date2add
      ∨ token = "-QuickTime:CreateDate=" +:+ datetime.strftime date2add)
     ∧ set_date_original date2add self w = (Return tt, self', w)
     ∧ _commands self' = _commands self ++ [token]
     ∧ length (_commands self') = S (length (_commands self)))
  ∧ (has_editable_metadate self = Return false →
     ∃ self',
       set_date_original date2add self w = (Raise AssertionError, self', w)
       ∧ self' = self
       ∧ _commands self' = _commands self).
Proof.
  intros Hp Hfmt. unfold has_editable_metadate. rewrite Hp, Hfmt.
  unfold set_date_original, get_self, mbind, M_bind, raise. rewrite Hp.
  assert (Hiff : extension_of p ∈ fast_editable_formats ↔
                 extension_of p ∈ extensions Keywords.Exif.kwd
                 ∨ extension_of p ∈ extensions Keywords.QuickTime.kwd).
  { change fast_editable_formats
      with (extensions Keywords.Exif.kwd ++ extensions Keywords.QuickTime.kwd).
    apply elem_of_app. }
  assert (Hlen : ∀ (l : list string) (x : string),
            length (l ++ [x]) = S (length l)).
  { intros l x. rewrite length_app. cbn [length]. lia. }
  split.
  - intros [= Ht]. apply bool_decide_eq_true in Ht. apply Hiff in Ht.
    destruct (bool_decide (extension_of p ∈ extensions Keywords.Exif.kwd)) eqn:He.
    + do 2 eexists. split; [left; reflexivity|]. split; [reflexivity|].
      split; [reflexivity|]. apply Hlen.
    + apply bool_decide_eq_false in He. destruct Ht as [?|Hq]; [done|].
      rewrite (bool_decide_eq_true_2 _ Hq).
      do 2 eexists. split; [right; reflexivity|]. split; [reflexivity|].
      split; [reflexivity|]. apply Hlen.
  - intros [= Hf]. apply bool_decide_eq_false in Hf.
    rewrite Hiff in Hf.
    rewrite !bool_decide_eq_false_2 by tauto.
    eexists. split; [reflexivity|]. split; reflexivity.
Qed.

Lemma set_date_original_iff_editable_witness :
  (∃ token self',
     (token = "-EXIF:DateTimeOriginal=" +:+ datetime.strftime may_2021
      ∨ token = "-QuickTime:CreateDate=" +:+ datetime.strftime may_2021)
     ∧ set_date_original may_2021 mov_session photo_world
       = (Return tt, self', photo_world)
     ∧ _commands self' = _commands mov_session ++ [token]
     ∧ length (_commands self') = S (length (_commands mov_session)))
  ∧ (∃ self',
       set_date_original may_2021
         (loaded (mk_Path "/films" "clip.avi") ∅) photo_world
       = (Raise AssertionError, self', photo_world)
       ∧ self' = loaded (mk_Path "/films" "clip.avi") ∅
       ∧ _commands self' = _commands (loaded (mk_Path "/films" "clip.avi") ∅)).
Proof.
  split.
  - refine (proj1 (set_date_original_iff_editable may_2021 mov_session
      photo_world (mk_Path "/films" "clip.MOV") eq_refl eq_refl) _).
    vm_compute. reflexivity.
  - refine (proj2 (set_date_original_iff_editable may_2021
      (loaded (mk_Path "/films" "clip.avi") ∅) photo_world
      (mk_Path "/films" "clip.avi") eq_refl eq_refl) _).
    vm_compute. reflexivity.
Defined.

(** X21. [get_date_original_as_str] never raises: it gives the EXIF original
    date text when that tag is present, else the QuickTime creation date
    text when that tag is present, else the empty text. *)
Theorem get_date_original_as_str_is_lenient (self : PyKernel) :
  get_date_original_as_str self =
    Return
      match _metadata self !! Keywords.Exif.datetime_original with
      | Some v => v
      | None => default "" (_metadata self !! Keywords.QuickTime.create_date)
      end.
Proof.
  unfold get_date_original_as_str, has_exif_date_original_field,
    has_mov_create_date_field, get_exif_date_original_as_str,
    get_mov_create_date_as_str, Py.has_key, Py.getitem.
  destruct (_metadata self !! Keywords.Exif.datetime_original); [done|].
  by destruct (_metadata self !! Keywords.QuickTime.create_date).
Qed.

Lemma upper_char_dot c : Ascii.eqb (Py.upper_char c) "." = Ascii.eqb c ".".
Proof. destruct c as [[] [] [] [] [] [] [] []]; reflexivity. Qed.

Lemma upper_char_idem c : Py.upper_char (Py.upper_char c) = Py.upper_char c.
Proof. destruct c as [[] [] [] [] [] [] [] []]; reflexivity. Qed.

Lemma upper_idem s : Py.upper (Py.upper s) = Py.upper s.
Proof.
  induction s as [|c s IH]; [done|]. cbn [Py.upper].
  by rewrite upper_char_idem, IH.
Qed.

Lemma from_last_dot_upper s :
  pathlib.from_last_dot (Py.upper s) = Py.upper <$> pathlib.from_last_dot s.
Proof.
  induction s as [|c s IH]; [done|]. cbn [Py.upper pathlib.from_last_dot].
  rewrite IH. destruct (pathlib.from_last_dot s); [done|].
  cbn [fmap option_fmap option_map]. rewrite upper_char_dot.
  by destruct (Ascii.eqb c ".").
Qed.

Lemma suffix_upper d n :
  pathlib.suffix (mk_Path d (Py.upper n)) = Py.upper (pathlib.suffix (mk_Path d n)).
Proof.
  unfold pathlib.suffix. cbn [name]. destruct n as [|c n]; [done|].
  cbn [Py.upper]. rewrite from_last_dot_upper.
  by destruct (pathlib.from_last_dot n) as [[|x [|y t]]|].
Qed.

(** X22. Upper-casing the letters a..z of a file name changes neither its
    extension as the dispatcher computes it nor, therefore, the answers of
    [has_readable_metadate] and [has_editable_metadate]. *)
Theorem extension_ignores_case (d n : string) (self : PyKernel) :
  extension_of (mk_Path d (Py.upper n)) = extension_of (mk_Path d n)
  ∧ has_readable_metadate (set_filepath (Some (mk_Path d (Py.upper n))) self)
    = has_readable_metadate (set_filepath (Some (mk_Path d n)) self)
  ∧ has_editable_metadate (set_filepath (Some (mk_Path d (Py.upper n))) self)
    = has_editable_metadate (set_filepath (Some (mk_Path d n)) self).
Proof.
  assert (H : extension_of (mk_Path d (Py.upper n)) = extension_of (mk_Path d n)).
  { unfold extension_of. rewrite suffix_upper.
    destruct (pathlib.suffix (mk_Path d n)) as [|c s]; [done|].
    cbn [Py.upper Py.tail]. apply upper_idem. }
  unfold has_readable_metadate, has_editable_metadate. cbn [set_filepath _filepath
    _readable_formats _editable_formats]. by rewrite H.
Qed.

(** X23. [set_date_original] only queues: whether it returns or raises, the
    world is untouched and the file path, the fields, and what
    [get_date_original], [get_date_original_as_str] and
    [has_metadata_date_original] answer are as before. *)
Theorem set_date_original_is_deferred (date2add : datetime)
  (self : PyKernel) (w : World) (r : result unit) (self' : PyKernel) (w' : World) :
  set_date_original date2add self w = (r, self', w') →
  w' = w
  ∧ _metadata self' = _metadata self
  ∧ _filepath self' = _filepath self
  ∧ get_date_original self' = get_date_original self
  ∧ get_date_original_as_str self' = get_date_original_as_str self
  ∧ has_metadata_date_original self' = has_metadata_date_original self.
Proof.
  unfold set_date_original, get_self, mbind, M_bind, raise,
    set_exif_original_date, set_mov_create_date, modify_self.
  repeat case_match; intros [= <- <- <-]; done.
Qed.

Lemma set_date_original_is_deferred_witness :
  get_date_original
    (set_date_original may_2021 mov_session photo_world).1.2
  = get_date_original mov_session.
Proof.
  refine (proj1 (proj2 (proj2 (proj2 (set_date_original_is_deferred may_2021
    mov_session photo_world
    (set_date_original may_2021 mov_session photo_world).1.1
    (set_date_original may_2021 mov_session photo_world).1.2
    (set_date_original may_2021 mov_session photo_world).2 _))))).
  vm_compute. reflexivity.
Defined.

(** X24. On a missing tag the camera make and model getters give the empty
    text, while the raw text getters and the date getters raise [KeyError];
    on a present tag a date getter gives what [_metadates] gives for the
    white-space split of the text. *)
Theorem getters_on_missing_tag (self : PyKernel) :
  (get_exif_camera_make self
     = Return (default "" (_metadata self !! Keywords.Exif.camera_make)))
  ∧ (get_exif_camera_model self
     = Return (default "" (_metadata self !! Keywords.Exif.camera_model)))
  ∧ (∀ get key, (get, key) ∈ raw_getters →
       _metadata self !! key = None → get self = Raise KeyError)
  ∧ (∀ get key, (get, key) ∈ date_getters →
       _metadata self !! key = None → get self = Raise KeyError)
  ∧ (∀ get key v, (get, key) ∈ date_getters →
       _metadata self !! key = Some v → get self = _metadates (Py.split_ws v)).
Proof.
  refine (conj _ (conj _ (conj _ (conj _ _)))).
  - unfold get_exif_camera_make, Py.has_key, Py.getitem.
    by destruct (_metadata self !! _).
  - unfold get_exif_camera_model, Py.has_key, Py.getitem.
    by destruct (_metadata self !! _).
  - intros get key. unfold raw_getters. rewrite !elem_of_cons, elem_of_nil.
    intros [[= -> ->]|[[= -> ->]|[[= -> ->]|[]]]] Hk;
      unfold get_exif_date_original_as_str, get_mov_create_date_as_str,
        get_mov_comment, Py.getitem; by rewrite Hk.
  - intros get key. unfold date_getters. rewrite !elem_of_cons, elem_of_nil.
    intros [[= -> ->]|[[= -> ->]|[[= -> ->]|[[= -> ->]|[]]]]] Hk;
      unfold get_exif_modify_date, get_exif_original_date,
        get_exif_digitized_date, get_mov_create_date, Py.getitem;
      by rewrite Hk.
  - intros get key v. unfold date_getters. rewrite !elem_of_cons, elem_of_nil.
    intros [[= -> ->]|[[= -> ->]|[[= -> ->]|[[= -> ->]|[]]]]] Hk;
      unfold get_exif_modify_date, get_exif_original_date,
        get_exif_digitized_date, get_mov_create_date, Py.getitem;
      by rewrite Hk.
Qed.

Lemma getters_on_missing_tag_witness :
  get_mov_comment mov_session = Raise KeyError.
Proof.
  refine (proj1 (proj2 (proj2 (getters_on_missing_tag mov_session)))
            get_mov_comment Keywords.QuickTime.comment _ _).
  - do 2 constructor. constructor.
  - vm_compute. reflexivity.
Defined.
